(** * Project Performance Dashboard (app.py): pipeline model and properties

    The dashboard is one linear Streamlit script: it loads a sheet into a
    pandas DataFrame, narrows it with two sidebar multiselects, and renders
    three KPI metrics, three charts and the filtered table.

    The model below follows the script line by line.  A DataFrame is a list
    of column names together with its rows; DataFrames live in a store and
    the script's variables [df] and [df_filtered] hold references into it,
    because the script both aliases ([df_filtered = df]) and assigns a
    column in place.  Rendering calls append to the page, and [st.stop()]
    ends the pass.

    Numbers are exact rationals extended with NaN: pandas' float64 rounding
    is not modelled, every other step of the reductions (NaN skipping, the
    NaN mean of an empty column, the dropped NaN group keys) is. *)

From Stdlib Require Import QArith Qabs Qcanon ZArith Ascii DecimalString Sorted
  OrdersEx.
From stdpp Require Import base decidable option list numbers strings.

Local Open Scope Z_scope.
Local Open Scope string_scope.
Local Open Scope Qc_scope.
Local Open Scope list_scope.
Local Open Scope stdpp_scope.

(** ** Cells, rows and frames *)

(** A cell of a text column; [None] is a missing cell (pandas NaN). *)
Abbreviation text := (option string).

(** A cell of a numeric column, and the result of a reduction; [None] is
    NaN. *)
Abbreviation number := (option Qc).

(** One row of the sheet 'Cleaned Data'.  The fields are the columns the
    script reads, and [budgetUtilizationDisplay] is the column the script
    itself assigns (line 115).  A field of a column that the frame does not
    have is never read. *)
Record ProjectRecord := mkRecord {
  projectType : text;                      (* 'Project Type' *)
  status : text;                           (* 'Status' *)
  totalProjects : number;                  (* 'Total Projects' *)
  budgetAllocated : number;                (* 'Budget Allocated' *)
  budgetUtilized : number;                 (* 'Budget Utilized' *)
  citizenSatisfactionRate : number;        (* 'Citizen Satisfaction Rate' *)
  year : number;                           (* 'Year' *)
  budgetUtilizationPercentage : number;    (* 'Budget Utilization Percentage' *)
  budgetUtilizationDisplay : number        (* 'Budget Utilization Display' *)
}.

Global Instance ProjectRecord_eq_dec : EqDecision ProjectRecord.
Proof. solve_decision. Defined.

Record DataFrame := mkFrame {
  columns : list string;                   (* df.columns *)
  rows : list ProjectRecord
}.

Global Instance DataFrame_eq_dec : EqDecision DataFrame.
Proof. solve_decision. Defined.

(** [pd.DataFrame()] *)
Definition empty_frame : DataFrame := mkFrame [] [].

(** [df.empty]: some axis has length zero. *)
Definition df_empty (d : DataFrame) : bool :=
  bool_decide (rows d = []) || bool_decide (columns d = []).

(** [name in df.columns] *)
Definition has_column (name : string) (d : DataFrame) : bool :=
  bool_decide (name ∈ columns d).

(** [df[name]] for the column stored in field [f]. *)
Definition column {A} (f : ProjectRecord → A) (d : DataFrame) : list A :=
  f <$> rows d.

(** ** Series operations *)

(** The cells that are not NaN, in order. *)
Definition dropna {A} (s : list (option A)) : list A := omap id s.

Definition Qc_sum (xs : list Qc) : Qc := foldr Qcplus 0 xs.

(** [Series.sum()]: NaN cells are skipped, the empty sum is 0.  Addition
    here is exact, while pandas adds binary64 floats, whose addition is not
    associative: the theorems on totals say which rows a sum ranges over
    and do not equate sums that add the same numbers in different orders. *)
Definition sum (s : list number) : Qc := Qc_sum (dropna s).

(** [Series.mean()]: NaN cells are skipped; NaN when nothing is left. *)
Definition mean (s : list number) : number :=
  match dropna s with
  | [] => None
  | xs => Some (Qc_sum xs / Qc_of_Z (Z.of_nat (length xs)))
  end.

(** [x * 100] on a float; NaN stays NaN. *)
Definition times100 (x : number) : number := (λ q, q * Qc_of_Z 100) <$> x.

(** [Series.unique().tolist()]: distinct cells in order of first
    appearance, NaN included. *)
Fixpoint unique_from {A} `{EqDecision A} (seen l : list A) : list A :=
  match l with
  | [] => []
  | x :: l' =>
      if decide (x ∈ seen) then unique_from seen l'
      else x :: unique_from (x :: seen) l'
  end.

Definition unique {A} `{EqDecision A} (l : list A) : list A := unique_from [] l.

(** [Series.isin(values)]: the boolean mask; a NaN cell matches a NaN
    among the values. *)
Definition isin {A} `{EqDecision A} (s values : list A) : list bool :=
  (λ x, bool_decide (x ∈ values)) <$> s.

(** Rows kept by a boolean mask, in order. *)
Fixpoint mask_rows {A} (l : list A) (mask : list bool) : list A :=
  match l, mask with
  | x :: l', b :: mask' =>
      if b then x :: mask_rows l' mask' else mask_rows l' mask'
  | _, _ => []
  end.

(** [df[mask]]: a new frame with the same columns. *)
Definition bool_index (d : DataFrame) (mask : list bool) : DataFrame :=
  mkFrame (columns d) (mask_rows (rows d) mask).

(** [df.groupby(key)]: the distinct keys that are not NaN, in ascending
    order (pandas' defaults [sort=True], [dropna=True]), each with its rows
    in their original order. *)
Section groupby.
Context {K : Type} `{EqDecision K} (cmp : K → K → comparison).

Fixpoint insert_key (k : K) (ks : list K) : list K :=
  match ks with
  | [] => [k]
  | h :: t =>
      match cmp k h with
      | Lt => k :: h :: t
      | Eq => h :: t
      | Gt => h :: insert_key k t
      end
  end.

Definition group_keys (s : list (option K)) : list K :=
  foldr insert_key [] (dropna s).

Definition groupby (key : ProjectRecord → option K) (l : list ProjectRecord)
    : list (K * list ProjectRecord) :=
  (λ k, (k, filter (λ r, key r = Some k) l)) <$> group_keys (key <$> l).

(** The strict order the keys are sorted by. *)
Definition cmp_lt (a b : K) : Prop := cmp a b = Lt.

End groupby.

(** [Series.value_counts()]: occurrences of each distinct value that is not
    NaN, most frequent first; equal counts stay in order of first
    appearance. *)
Fixpoint insert_count (x : string * nat) (l : list (string * nat))
    : list (string * nat) :=
  match l with
  | [] => [x]
  | y :: l' =>
      if (x.2 <? y.2)%nat then y :: insert_count x l' else x :: y :: l'
  end.

Definition value_counts (s : list text) : list (string * nat) :=
  let vals := dropna s in
  foldr insert_count []
    ((λ v, (v, length (filter (λ y, y = v) vals))) <$> unique vals).

(** The order of the bars: falling count. *)
Definition count_ge (a b : string * nat) : Prop := (b.2 ≤ a.2)%nat.

(** ** Display formats *)

Definition string_of_Z (z : Z) : string := NilZero.string_of_int (Z.to_int z).

(** Python's [int(x)] on a float: truncation towards zero. *)
Definition int (q : Qc) : Z := Z.quot (Qnum q) (Z.pos (Qden q)).

(** Nearest integer to a rational, ties to even. *)
Definition round_half_even (q : Q) : Z :=
  let n := Qnum q in
  let d := Z.pos (Qden q) in
  let fl := (n / d)%Z in
  match (2 * (n mod d) ?= d)%Z with
  | Lt => fl
  | Gt => (fl + 1)%Z
  | Eq => if Z.even fl then fl else (fl + 1)%Z
  end.

Definition two_digits (z : Z) : string :=
  if (z <? 10)%Z then "0" ++ string_of_Z z else string_of_Z z.

(** The format spec [:.2f]. *)
Definition format_2f (x : number) : string :=
  match x with
  | None => "nan"
  | Some q =>
      let cents := round_half_even (Qabs q * 100)%Q in
      (if bool_decide (q < 0) then "-" else "") ++
      string_of_Z (cents / 100) ++ "." ++ two_digits (cents mod 100)
  end.

(** [f"{x:.2f}%"] *)
Definition percent_label (x : number) : string := format_2f x ++ "%".

(** ** Aggregates of the filtered frame (lines 70-83 and 89-117) *)

(** Line 71. *)
Definition total_projects (d : DataFrame) : Qc :=
  if has_column "Total Projects" d then sum (column totalProjects d) else 0.

(** Lines 75-77. *)
Definition avg_budget_utilization (d : DataFrame) : number :=
  if has_column "Budget Utilized" d && has_column "Budget Allocated" d
     && bool_decide (0 < sum (column budgetAllocated d))
  then Some (sum (column budgetUtilized d) / sum (column budgetAllocated d)
             * Qc_of_Z 100)
  else Some 0.

(** Line 82. *)
Definition avg_satisfaction (d : DataFrame) : number :=
  if has_column "Citizen Satisfaction Rate" d
  then times100 (mean (column citizenSatisfactionRate d))
  else Some 0.

(** The three metric values as displayed (lines 72, 78 and 83). *)
Definition kpi_values (d : DataFrame) : string * string * string :=
  (string_of_Z (int (total_projects d)),
   percent_label (avg_budget_utilization d),
   percent_label (avg_satisfaction d)).

(** Lines 90-91. *)
Definition status_counts (d : DataFrame) : list (string * nat) :=
  value_counts (column status d).

(** Line 103. *)
Definition budget_by_type (d : DataFrame) : list (string * Qc) :=
  (λ g, (g.1, sum (budgetAllocated <$> g.2)))
    <$> groupby String_as_OT.compare projectType (rows d).

Definition set_display (r : ProjectRecord) (v : number) : ProjectRecord :=
  mkRecord (projectType r) (status r) (totalProjects r) (budgetAllocated r)
    (budgetUtilized r) (citizenSatisfactionRate r) (year r)
    (budgetUtilizationPercentage r) v.

(** Line 115: [df['Budget Utilization Display'] = df['Budget Utilization
    Percentage'] * 100], as the frame it leaves in the assigned object. *)
Definition assign_display (d : DataFrame) : DataFrame :=
  mkFrame
    (if has_column "Budget Utilization Display" d then columns d
     else columns d ++ ["Budget Utilization Display"])
    ((λ r, set_display r (times100 (budgetUtilizationPercentage r)))
       <$> rows d).

(** Line 117, on the frame after the assignment. *)
Definition utilization_trend (d : DataFrame) : list (Qc * number) :=
  (λ g, (g.1, mean (budgetUtilizationDisplay <$> g.2)))
    <$> groupby Qccompare year (rows d).

(** ** The page, the store and the script *)

(** A plotly express figure with the data it is built from. *)
Inductive chart :=
  | px_bar (data : list (string * nat)) (title : string)
  | px_pie (data : list (string * Qc)) (title : string)
  | px_line (data : list (Qc * number)) (title : string).

(** What a Streamlit call puts on the page. *)
Inductive element :=
  | st_error (body : string)
  | st_title (body : string)
  | st_markdown (body : string)
  | st_subheader (body : string)
  | st_sidebar_header (body : string)
  | st_sidebar_multiselect (label : string) (options default : list text)
  | st_sidebar_warning (body : string)
  | st_metric (label value : string)
  | st_plotly_chart (fig : chart)
  | st_info (body : string)
  | st_dataframe (data : DataFrame).

(** What the script finds at a path: nothing ([os.path.exists] is false), a
    file on which [pd.read_excel(path, sheet_name='Cleaned Data')] raises
    [e], or a workbook whose sheet parses to a frame. *)
Inductive file :=
  | Absent
  | Unreadable (e : string)
  | Workbook (sheet : DataFrame).

Definition filesystem := string → file.

(** What the two multiselects return in this pass: the user's selection. *)
Record FilterState := mkFilter {
  selected_project_type : list text;
  selected_status : list text
}.

(** A reference to a DataFrame object in the store. *)
Abbreviation ref := nat.

Record world := mkWorld {
  heap : list DataFrame;
  page : list element
}.

Inductive outcome (A : Type) :=
  | Returned (a : A)
  | Stopped.
Arguments Returned {A} a.
Arguments Stopped {A}.

Definition script (A : Type) : Type := world → outcome A * world.

Global Instance script_ret : MRet script := λ A a w, (Returned a, w).

Global Instance script_bind : MBind script := λ A B f m w,
  match m w with
  | (Returned a, w') => f a w'
  | (Stopped, w') => (Stopped, w')
  end.

(** A rendering call. *)
Definition st (e : element) : script unit :=
  λ w, (Returned (), mkWorld (heap w) (page w ++ [e])).

(** [st.stop()] *)
Definition st_stop {A} : script A := λ w, (Stopped, w).

(** A new DataFrame object. *)
Definition new_frame (d : DataFrame) : script ref :=
  λ w, (Returned (length (heap w)), mkWorld (heap w ++ [d]) (page w)).

(** The frame a variable refers to. *)
Definition frame (r : ref) : script DataFrame :=
  λ w, (Returned (default empty_frame (heap w !! r)), w).

(** An assignment into the object a variable refers to. *)
Definition update_frame (r : ref) (f : DataFrame → DataFrame) : script unit :=
  λ w, (Returned (),
        mkWorld (alter f r (heap w)) (page w)).

(** [st.sidebar.multiselect(label, options=..., default=...)] *)
Definition multiselect (label : string) (options default selection : list text)
    : script (list text) :=
  st (st_sidebar_multiselect label options default);; mret selection.

Definition DATA_PATH : string := "cleaned_project_data.xlsx".

(** Lines 17-26.  The cache decorator replays the function's elements and
    hands out a fresh copy of the frame, so a pass sees what a call sees. *)
Definition load_data (fs : filesystem) (path : string) : script ref :=
  match fs path with
  | Absent =>
      st (st_error ("Data file not found at: " ++ path));;
      new_frame empty_frame
  | Unreadable e =>
      st (st_error ("Error loading data: " ++ e));;
      new_frame empty_frame
  | Workbook d => new_frame d
  end.

(** Lines 28-38. *)
Definition load_segment (fs : filesystem) : script ref :=
  df ← load_data fs DATA_PATH;
  d ← frame df;
  (if df_empty d then st_stop else mret ());;
  st (st_title "📊 Project Performance Dashboard");;
  st (st_markdown "Explore key insights from cleaned project data.");;
  st (st_sidebar_header "Filter Options");;
  mret df.

(** Lines 41-63: the value of [df_filtered] afterwards. *)
Definition filter_segment (F : FilterState) (df : ref) : script ref :=
  d ← frame df;
  df_filtered ←
    (if has_column "Project Type" d then
       let project_types := unique (column projectType d) in
       selected ← multiselect "Select Project Type(s)"
                    project_types project_types (selected_project_type F);
       new_frame (bool_index d (isin (column projectType d) selected))
     else
       st (st_sidebar_warning " 'Project Type' column not found for filtering.");;
       mret df);
  d ← frame df;
  if has_column "Status" d then
    let status_options := unique (column status d) in
    selected ← multiselect "Select Project Status(es)"
                 status_options status_options (selected_status F);
    d' ← frame df_filtered;
    new_frame (bool_index d' (isin (column status d') selected))
  else
    st (st_sidebar_warning " 'Status' column not found for filtering.");;
    mret df_filtered.

(** Lines 67-83. *)
Definition kpi_segment (df_filtered : ref) : script unit :=
  st (st_subheader "Key Performance Indicators");;
  d ← frame df_filtered;
  st (st_metric "Total Projects" (string_of_Z (int (total_projects d))));;
  st (st_metric "Avg Budget Utilization"
        (percent_label (avg_budget_utilization d)));;
  st (st_metric "Avg Citizen Satisfaction" (percent_label (avg_satisfaction d))).

(** Lines 86-128. *)
Definition charts_segment (df_filtered : ref) : script unit :=
  st (st_subheader "Visualizations");;
  d ← frame df_filtered;
  (if has_column "Status" d then
     st (st_plotly_chart (px_bar (status_counts d) "Number of Projects by Status"))
   else mret ());;
  (if has_column "Budget Allocated" d && has_column "Project Type" d then
     st (st_plotly_chart
           (px_pie (budget_by_type d) "Budget Allocation by Project Type"))
   else mret ());;
  if has_column "Year" d && has_column "Budget Utilization Percentage" d then
    update_frame df_filtered assign_display;;
    d' ← frame df_filtered;
    st (st_plotly_chart
          (px_line (utilization_trend d') "Average Budget Utilization Trend"))
  else if has_column "Budget Utilization Percentage" d then
    st (st_info "To show Budget Utilization Trend, ensure a 'Year' column exists in your data.")
  else mret ().

(** Lines 130-135. *)
Definition table_segment (df_filtered : ref) : script unit :=
  st (st_subheader "Filtered Raw Data");;
  d ← frame df_filtered;
  st (st_dataframe d);;
  st (st_markdown "---");;
  st (st_markdown "Dashboard created with Streamlit.").

(** One render pass; it returns the variables [df] and [df_filtered].  The
    page configuration of line 8, the three-column layout of line 68 and
    the axis title of line 125 decide how elements look, not which elements
    and data the page holds, and are left out. *)
Definition app (fs : filesystem) (F : FilterState) : script (ref * ref) :=
  df ← load_segment fs;
  df_filtered ← filter_segment F df;
  kpi_segment df_filtered;;
  charts_segment df_filtered;;
  table_segment df_filtered;;
  mret (df, df_filtered).

Definition run (fs : filesystem) (F : FilterState)
    : outcome (ref * ref) * world :=
  app fs F (mkWorld [] []).

(** ** Specification-side definitions *)

(** A row passes the filters: for each filterable column the frame has, its
    value is among the selected ones. *)
Definition selected_by (F : FilterState) (d : DataFrame) (r : ProjectRecord)
    : Prop :=
  ("Project Type" ∈ columns d → projectType r ∈ selected_project_type F) ∧
  ("Status" ∈ columns d → status r ∈ selected_status F).

Global Instance selected_by_dec F d r : Decision (selected_by F d r).
Proof. unfold selected_by. apply _. Defined.

(** The frame the filters leave. *)
Definition view (d : DataFrame) (F : FilterState) : DataFrame :=
  mkFrame (columns d) (filter (selected_by F d) (rows d)).

(** The selection of a first pass: every option of both multiselects. *)
Definition default_filter (d : DataFrame) : FilterState :=
  mkFilter (unique (column projectType d)) (unique (column status d)).

(** The error a failed load puts on the page. *)
Definition load_error (f : file) : list element :=
  match f with
  | Absent => [st_error ("Data file not found at: " ++ DATA_PATH)]
  | Unreadable e => [st_error ("Error loading data: " ++ e)]
  | Workbook _ => []
  end.

(** The frame line 48 creates. *)
Definition by_type (d : DataFrame) (F : FilterState) : DataFrame :=
  mkFrame (columns d)
    (filter (λ r, projectType r ∈ selected_project_type F) (rows d)).

(** What lines 41-63 put in the sidebar. *)
Definition filter_widgets (d : DataFrame) : list element :=
  [if has_column "Project Type" d
   then st_sidebar_multiselect "Select Project Type(s)"
          (unique (column projectType d)) (unique (column projectType d))
   else st_sidebar_warning " 'Project Type' column not found for filtering.";
   if has_column "Status" d
   then st_sidebar_multiselect "Select Project Status(es)"
          (unique (column status d)) (unique (column status d))
   else st_sidebar_warning " 'Status' column not found for filtering."].

(** The frames lines 41-63 create. *)
Definition filter_objects (d : DataFrame) (F : FilterState) : list DataFrame :=
  (if has_column "Project Type" d then [by_type d F] else []) ++
  (if has_column "Status" d then [view d F] else []).

(** The object [df_filtered] refers to after line 63, when the variable
    [df] holds the reference [df] and the store held [n] objects before. *)
Definition filtered_ref (d : DataFrame) (n : nat) (df : ref) : ref :=
  if has_column "Project Type" d then
    if has_column "Status" d then S n else n
  else
    if has_column "Status" d then n else df.

(** The line chart can be drawn (line 113). *)
Definition trend_available (d : DataFrame) : bool :=
  has_column "Year" d && has_column "Budget Utilization Percentage" d.

(** What lines 67-83 put on the page for the filtered frame [v]. *)
Definition kpi_widgets (v : DataFrame) : list element :=
  [st_subheader "Key Performance Indicators";
   st_metric "Total Projects" (kpi_values v).1.1;
   st_metric "Avg Budget Utilization" (kpi_values v).1.2;
   st_metric "Avg Citizen Satisfaction" (kpi_values v).2].

(** What lines 86-128 put on the page for the filtered frame [v]. *)
Definition charts_widgets (v : DataFrame) : list element :=
  [st_subheader "Visualizations"] ++
  (if has_column "Status" v
   then [st_plotly_chart (px_bar (status_counts v) "Number of Projects by Status")]
   else []) ++
  (if has_column "Budget Allocated" v && has_column "Project Type" v
   then [st_plotly_chart
           (px_pie (budget_by_type v) "Budget Allocation by Project Type")]
   else []) ++
  (if trend_available v
   then [st_plotly_chart
           (px_line (utilization_trend (assign_display v))
              "Average Budget Utilization Trend")]
   else if has_column "Budget Utilization Percentage" v
   then [st_info "To show Budget Utilization Trend, ensure a 'Year' column exists in your data."]
   else []).

(** What lines 130-135 put on the page when the table shows [v]. *)
Definition table_widgets (v : DataFrame) : list element :=
  [st_subheader "Filtered Raw Data";
   st_dataframe v;
   st_markdown "---";
   st_markdown "Dashboard created with Streamlit."].

(** The frame [df_filtered] refers to when the table is drawn. *)
Definition shown (d : DataFrame) (F : FilterState) : DataFrame :=
  if trend_available d then assign_display (view d F) else view d F.

(** The store at the end of a pass over a workbook that is not empty. *)
Definition final_heap (d : DataFrame) (F : FilterState) : list DataFrame :=
  if trend_available d
  then alter assign_display (filtered_ref d 1 0) ([d] ++ filter_objects d F)
  else [d] ++ filter_objects d F.

(** The page at the end of such a pass. *)
Definition final_page (d : DataFrame) (F : FilterState) : list element :=
  [st_title "📊 Project Performance Dashboard";
   st_markdown "Explore key insights from cleaned project data.";
   st_sidebar_header "Filter Options"] ++
  filter_widgets d ++ kpi_widgets (view d F) ++ charts_widgets (view d F) ++
  table_widgets (shown d F).

Global Instance chart_eq_dec : EqDecision chart.
Proof. solve_decision. Defined.

Global Instance element_eq_dec : EqDecision element.
Proof. solve_decision. Defined.

(** ** Example sheets *)

(** The two-row scenario: statuses 'Done' and 'Active', allocated 100 and
    50, utilized 80 and 50. *)
Definition scenario : DataFrame :=
  mkFrame ["Status"; "Budget Allocated"; "Budget Utilized"]
    [mkRecord None (Some "Done") None (Some (Qc_of_Z 100)) (Some (Qc_of_Z 80))
       None None None None;
     mkRecord None (Some "Active") None (Some (Qc_of_Z 50)) (Some (Qc_of_Z 50))
       None None None None].

(** A sheet with the two trend columns and neither filter column. *)
Definition trend_only : DataFrame :=
  mkFrame ["Year"; "Budget Utilization Percentage"]
    [mkRecord None None None None None None (Some (Qc_of_Z 2023))
       (Some (Q2Qc (1 # 2))) None].

(** The body of the only [st.info] of the script (line 128). *)
Definition trend_notice : string :=
  "To show Budget Utilization Trend, ensure a 'Year' column exists in your data.".

(** A sheet with the percentage column and no 'Year' column. *)
Definition percentage_only : DataFrame :=
  mkFrame ["Status"; "Budget Utilization Percentage"]
    [mkRecord None (Some "Done") None None None None None
       (Some (Q2Qc (3 # 4))) None].

(** A sheet with both trend columns, a filter column and two years. *)
Definition two_years : DataFrame :=
  mkFrame ["Status"; "Year"; "Budget Utilization Percentage"]
    [mkRecord None (Some "Done") None None None None (Some (Qc_of_Z 2024))
       (Some (Q2Qc (1 # 2))) None;
     mkRecord None (Some "Active") None None None None (Some (Qc_of_Z 2023))
       (Some (Q2Qc (3 # 4))) None;
     mkRecord None (Some "Done") None None None None (Some (Qc_of_Z 2024))
       (Some (Q2Qc (1 # 4))) None].

(** A sheet with every KPI column, and a selection that keeps no row. *)
Definition rated : DataFrame :=
  mkFrame ["Status"; "Total Projects"; "Budget Allocated"; "Budget Utilized";
           "Citizen Satisfaction Rate"]
    [mkRecord None (Some "Done") (Some (Qc_of_Z 3)) (Some (Qc_of_Z 100))
       (Some (Qc_of_Z 80)) (Some (Q2Qc (4 # 5))) None None None].

Definition nothing_selected : FilterState := mkFilter [] [].

(** A sheet in which one row has no project type. *)
Definition untyped : DataFrame :=
  mkFrame ["Project Type"; "Budget Allocated"]
    [mkRecord (Some "Road") None None (Some (Qc_of_Z 100)) None None None None
       None;
     mkRecord None None None (Some (Qc_of_Z 10)) None None None None None].

(** A sheet in which every row has a project type. *)
Definition typed : DataFrame :=
  mkFrame ["Project Type"; "Budget Allocated"]
    [mkRecord (Some "Road") None None (Some (Qc_of_Z 100)) None None None None
       None;
     mkRecord (Some "Bridge") None None (Some (Qc_of_Z 40)) None None None None
       None;
     mkRecord (Some "Road") None None None None None None None None;
     mkRecord (Some "Road") None None (Some (Qc_of_Z 10)) None None None None
       None].

(** The character occurs in the string. *)
Fixpoint mentions (c : ascii) (s : string) : bool :=
  match s with
  | EmptyString => false
  | String a s' => bool_decide (a = c) || mentions c s'
  end.

(** [opts] lists the values of the column [col], each once, in the order
    of their first appearances: wherever an option [x] stands in [opts],
    the column splits at the first appearance of [x], and none of the
    options after [x] shows in the column before that point. *)
Definition first_appearances {A} (opts col : list A) : Prop :=
  NoDup opts ∧
  (∀ x, x ∈ opts ↔ x ∈ col) ∧
  (∀ o1 x o2, opts = o1 ++ x :: o2 →
     ∃ l1 l2, col = l1 ++ x :: l2 ∧ (x ∉ l1) ∧ ∀ y, y ∈ o2 → y ∉ l1).

(** The frame [df_filtered] holds after lines 41-63, when the store holds
    the loaded frame [d] and nothing else. *)
Definition df_filtered_after (F : FilterState) (d : DataFrame) : DataFrame :=
  match filter_segment F 0%nat (mkWorld [d] []) with
  | (Returned r, w) => default empty_frame (heap w !! r)
  | (Stopped, _) => empty_frame
  end.

(** ** The script monad *)

Ltac step :=
  unfold mbind, script_bind, mret, script_ret, st, st_stop, frame, new_frame,
    update_frame, multiselect; cbn.

(** ** Loading (lines 17-31) *)

Lemma load_data_absent fs path w :
  fs path = Absent →
  load_data fs path w =
    (Returned (length (heap w)),
     mkWorld (heap w ++ [empty_frame])
       (page w ++ [st_error ("Data file not found at: " ++ path)])).
Proof. intros E. unfold load_data. rewrite E. reflexivity. Qed.

Lemma load_data_unreadable fs path e w :
  fs path = Unreadable e →
  load_data fs path w =
    (Returned (length (heap w)),
     mkWorld (heap w ++ [empty_frame])
       (page w ++ [st_error ("Error loading data: " ++ e)])).
Proof. intros E. unfold load_data. rewrite E. reflexivity. Qed.

Lemma load_data_workbook fs path d w :
  fs path = Workbook d →
  load_data fs path w =
    (Returned (length (heap w)), mkWorld (heap w ++ [d]) (page w)).
Proof. intros E. unfold load_data. rewrite E. reflexivity. Qed.

Lemma load_segment_workbook fs d :
  fs DATA_PATH = Workbook d →
  df_empty d = false →
  load_segment fs (mkWorld [] []) =
    (Returned 0%nat,
     mkWorld [d]
       [st_title "📊 Project Performance Dashboard";
        st_markdown "Explore key insights from cleaned project data.";
        st_sidebar_header "Filter Options"]).
Proof.
  intros E Hne. unfold load_segment.
  unfold mbind at 1, script_bind at 1.
  rewrite (load_data_workbook _ _ _ _ E). step. rewrite Hne. reflexivity.
Qed.

Lemma mask_rows_isin {A} `{EqDecision A} (f : ProjectRecord → A)
    (vals : list A) (l : list ProjectRecord) :
  mask_rows l (isin (f <$> l) vals) = filter (λ r, f r ∈ vals) l.
Proof.
  induction l as [|r l IH]; [reflexivity|].
  rewrite filter_cons. unfold isin in *. cbn. rewrite IH.
  case_bool_decide; case_decide; done.
Qed.

Lemma bool_index_isin {A} `{EqDecision A} (f : ProjectRecord → A)
    (vals : list A) (d : DataFrame) :
  bool_index d (isin (column f d) vals) =
  mkFrame (columns d) (filter (λ r, f r ∈ vals) (rows d)).
Proof. unfold bool_index, column. by rewrite mask_rows_isin. Qed.

#[local] Arguments isin : simpl never.
#[local] Arguments bool_index : simpl never.
#[local] Arguments unique : simpl never.
#[local] Arguments column : simpl never.
#[local] Arguments has_column : simpl never.
#[local] Arguments assign_display : simpl never.

Lemma has_column_true name d : has_column name d = true ↔ name ∈ columns d.
Proof. apply bool_decide_eq_true. Qed.

Lemma has_column_false name d : has_column name d = false ↔ name ∉ columns d.
Proof. apply bool_decide_eq_false. Qed.

Lemma view_both d F :
  has_column "Project Type" d = true → has_column "Status" d = true →
  mkFrame (columns d)
    (filter (λ r, status r ∈ selected_status F)
       (filter (λ r, projectType r ∈ selected_project_type F) (rows d)))
  = view d F.
Proof.
  intros Hpt%has_column_true Hst%has_column_true. unfold view. f_equal.
  rewrite list_filter_filter. apply list_filter_iff.
  intros r. unfold selected_by. tauto.
Qed.

Lemma view_type_only d F :
  has_column "Project Type" d = true → has_column "Status" d = false →
  by_type d F = view d F.
Proof.
  intros Hpt%has_column_true Hst%has_column_false. unfold view, by_type.
  f_equal. apply list_filter_iff. intros r. unfold selected_by. tauto.
Qed.

Lemma view_status_only d F :
  has_column "Project Type" d = false → has_column "Status" d = true →
  mkFrame (columns d) (filter (λ r, status r ∈ selected_status F) (rows d))
  = view d F.
Proof.
  intros Hpt%has_column_false Hst%has_column_true. unfold view.
  f_equal. apply list_filter_iff. intros r. unfold selected_by. tauto.
Qed.

Lemma filter_all {A} (P : A → Prop) `{∀ x, Decision (P x)} (l : list A) :
  (∀ x, P x) → filter P l = l.
Proof.
  intros HP. induction l as [|x l IH]; [reflexivity|].
  by rewrite filter_cons_True, IH.
Qed.

Lemma view_neither d F :
  has_column "Project Type" d = false → has_column "Status" d = false →
  view d F = d.
Proof.
  intros Hpt%has_column_false Hst%has_column_false. destruct d as [cs rs].
  unfold view. cbn in *. f_equal.
  apply filter_all. intros r. unfold selected_by. cbn. tauto.
Qed.

Lemma filter_segment_eq F d w df :
  heap w !! df = Some d →
  filter_segment F df w =
    (Returned (filtered_ref d (length (heap w)) df),
     mkWorld (heap w ++ filter_objects d F) (page w ++ filter_widgets d)).
Proof.
  intros Hdf. unfold filter_segment, filtered_ref, filter_objects, filter_widgets.
  step. rewrite Hdf. cbn.
  destruct (has_column "Project Type" d) eqn:Hpt.
  - step. rewrite lookup_app_l_Some with (x := d) by done. cbn.
    destruct (has_column "Status" d) eqn:Hst.
    + step. rewrite list_lookup_middle by done. cbn.
      rewrite !bool_index_isin. cbn. rewrite view_both by done.
      rewrite length_app, Nat.add_1_r, <- !(assoc_L (++)). reflexivity.
    + step. rewrite bool_index_isin, <- !(assoc_L (++)). reflexivity.
  - step. rewrite Hdf. cbn.
    destruct (has_column "Status" d) eqn:Hst.
    + step. rewrite Hdf. cbn. rewrite bool_index_isin, view_status_only by done.
      rewrite <- !(assoc_L (++)). reflexivity.
    + step. rewrite <- !(assoc_L (++)), app_nil_r. by destruct w.
Qed.

Lemma kpi_segment_eq r v w :
  heap w !! r = Some v →
  kpi_segment r w = (Returned (), mkWorld (heap w) (page w ++ kpi_widgets v)).
Proof.
  intros Hr. unfold kpi_segment, kpi_widgets, kpi_values. step. rewrite Hr. cbn.
  rewrite <- !(assoc_L (++)). reflexivity.
Qed.

Lemma charts_segment_eq r v w :
  heap w !! r = Some v →
  charts_segment r w =
    (Returned (),
     mkWorld (if trend_available v then alter assign_display r (heap w)
              else heap w)
       (page w ++ charts_widgets v)).
Proof.
  intros Hr. unfold charts_segment, charts_widgets, trend_available.
  step. rewrite Hr. cbn.
  destruct (has_column "Status" v); cbn;
    destruct (has_column "Budget Allocated" v && has_column "Project Type" v);
    cbn;
    destruct (has_column "Year" v && has_column "Budget Utilization Percentage" v);
     cbn.
  all: rewrite ?list_lookup_alter_eq, ?Hr; cbn.
  all: try destruct (has_column "Budget Utilization Percentage" v); cbn.
  all: rewrite <- ?(assoc_L (++)), ?app_nil_r; reflexivity.
Qed.

Lemma table_segment_eq r v w :
  heap w !! r = Some v →
  table_segment r w =
    (Returned (), mkWorld (heap w) (page w ++ table_widgets v)).
Proof.
  intros Hr. unfold table_segment, table_widgets. step. rewrite Hr. cbn.
  rewrite <- !(assoc_L (++)). reflexivity.
Qed.

Lemma filtered_lookup d F h df :
  h !! df = Some d →
  (h ++ filter_objects d F) !! filtered_ref d (length h) df = Some (view d F).
Proof.
  intros Hdf. unfold filter_objects, filtered_ref.
  destruct (has_column "Project Type" d) eqn:Hpt,
           (has_column "Status" d) eqn:Hst; cbn.
  - rewrite lookup_app_r by lia. by replace (S (length h) - length h)%nat with 1%nat by lia.
  - rewrite list_lookup_middle by done. by rewrite view_type_only.
  - by rewrite list_lookup_middle.
  - rewrite app_nil_r, view_neither by done. done.
Qed.

Lemma loaded_lookup d F h df :
  h !! df = Some d → (h ++ filter_objects d F) !! df = Some d.
Proof. intros Hdf. by apply lookup_app_l_Some. Qed.

Lemma run_workbook fs F d :
  fs DATA_PATH = Workbook d →
  df_empty d = false →
  run fs F =
    (Returned (0%nat, filtered_ref d 1 0),
     mkWorld (final_heap d F) (final_page d F)).
Proof.
  intros E Hne. unfold run, app.
  unfold mbind at 1, script_bind at 1.
  rewrite (load_segment_workbook _ _ E Hne).
  unfold mbind at 1, script_bind at 1.
  rewrite (filter_segment_eq F d) by done. cbn [heap page length].
  pose proof (filtered_lookup d F [d] 0%nat eq_refl) as Hv.
  cbn [length] in Hv.
  unfold mbind at 1, script_bind at 1.
  rewrite (kpi_segment_eq _ (view d F)) by done. cbn [heap page].
  unfold mbind at 1, script_bind at 1.
  rewrite (charts_segment_eq _ (view d F)) by done. cbn [heap page].
  assert (trend_available (view d F) = trend_available d) as Ht by reflexivity.
  rewrite Ht.
  unfold mbind at 1, script_bind at 1.
  rewrite (table_segment_eq _ (shown d F)).
  - cbn [heap page]. unfold mret, script_ret, final_heap, final_page.
    rewrite <- !(assoc_L (++)). reflexivity.
  - cbn [heap]. unfold shown. destruct (trend_available d).
    + by rewrite list_lookup_alter_eq, Hv.
    + done.
Qed.

(** ** Load failures (lines 17-31) *)

(** C4. When the data file does not exist, or exists and cannot be read,
    the pass ends at [st.stop()]: the page holds the error message and
    nothing else, so no filter widget, metric, chart or table was computed
    or drawn. *)
Theorem load_failure_halts (fs : filesystem) (F : FilterState) :
  fs DATA_PATH = Absent ∨ (∃ e, fs DATA_PATH = Unreadable e) →
  ∃ msg, load_error (fs DATA_PATH) = [st_error msg] ∧
         run fs F = (Stopped, mkWorld [empty_frame] [st_error msg]).
Proof.
  intros [E | [e E]]; rewrite E; cbn [load_error]; eexists; (split; [reflexivity|]).
  - unfold run, app, load_segment.
    do 2 (unfold mbind at 1, script_bind at 1).
    rewrite (load_data_absent _ _ _ E). reflexivity.
  - unfold run, app, load_segment.
    do 2 (unfold mbind at 1, script_bind at 1).
    rewrite (load_data_unreadable _ _ e _ E). reflexivity.
Qed.

Lemma load_failure_halts_witness :
  ∃ msg, load_error Absent = [st_error msg] ∧
         run (λ _, Absent) (mkFilter [] []) =
           (Stopped, mkWorld [empty_frame] [st_error msg]).
Proof.
  apply (load_failure_halts (λ _, Absent) (mkFilter [] [])).
  left. reflexivity.
Defined.

(** C10. A workbook whose sheet parses to zero rows ends the pass at the
    same [st.stop()] as a failed load, before any filtering or aggregation,
    and leaves the page empty: no error message is shown. *)
Theorem empty_sheet_halts_silently (fs : filesystem) (F : FilterState)
    (d : DataFrame) :
  fs DATA_PATH = Workbook d →
  rows d = [] →
  run fs F = (Stopped, mkWorld [d] []).
Proof.
  intros E Hrows. unfold run, app, load_segment.
  do 2 (unfold mbind at 1, script_bind at 1).
  rewrite (load_data_workbook _ _ _ _ E). step.
  unfold df_empty. rewrite Hrows. reflexivity.
Qed.

Lemma empty_sheet_halts_silently_witness :
  run (λ _, Workbook (mkFrame ["Status"; "Year"] [])) (mkFilter [] []) =
    (Stopped, mkWorld [mkFrame ["Status"; "Year"] []] []).
Proof.
  apply (empty_sheet_halts_silently _ _ (mkFrame ["Status"; "Year"] []));
    reflexivity.
Defined.

(** ** Filtering (lines 41-63) *)

(** C2. Started on a loaded frame [d], the filter code returns a frame with
    the columns of [d] and exactly the rows of [d] that pass [selected_by]:
    for each of 'Project Type' and 'Status' that [d] has, the row's value is
    among the selected ones, and a column [d] lacks does not constrain.  The
    rows keep their order, and the sidebar gets the warning of a filterable
    column exactly when [d] lacks that column. *)
Theorem filter_keeps_selected_rows (F : FilterState) (d : DataFrame)
    (w : world) (df : ref) :
  heap w !! df = Some d →
  ∃ df_filtered w' d' notices,
    filter_segment F df w = (Returned df_filtered, w') ∧
    heap w' !! df_filtered = Some d' ∧
    columns d' = columns d ∧
    rows d' = filter (selected_by F d) (rows d) ∧
    rows d' `sublist_of` rows d ∧
    page w' = page w ++ notices ∧
    (st_sidebar_warning " 'Project Type' column not found for filtering."
       ∈ notices ↔ "Project Type" ∉ columns d) ∧
    (st_sidebar_warning " 'Status' column not found for filtering."
       ∈ notices ↔ "Status" ∉ columns d).
Proof.
  intros Hdf.
  exists (filtered_ref d (length (heap w)) df),
    (mkWorld (heap w ++ filter_objects d F) (page w ++ filter_widgets d)),
    (view d F), (filter_widgets d).
  split; [by apply filter_segment_eq|].
  split; [by apply filtered_lookup|].
  do 2 (split; [reflexivity|]).
  split; [apply sublist_filter|].
  split; [reflexivity|].
  unfold filter_widgets. rewrite <- !has_column_false.
  destruct (has_column "Project Type" d), (has_column "Status" d);
    rewrite !elem_of_cons, !elem_of_nil;
    split; intuition (discriminate || auto).
Qed.

Lemma filter_keeps_selected_rows_witness :
  ∃ df_filtered w' d' notices,
    filter_segment (mkFilter [] [Some "Done"]) 0%nat (mkWorld [scenario] [])
      = (Returned df_filtered, w') ∧
    heap w' !! df_filtered = Some d' ∧
    columns d' = columns scenario ∧
    rows d' = filter (selected_by (mkFilter [] [Some "Done"]) scenario)
                (rows scenario) ∧
    rows d' `sublist_of` rows scenario ∧
    page w' = [] ++ notices ∧
    (st_sidebar_warning " 'Project Type' column not found for filtering."
       ∈ notices ↔ "Project Type" ∉ columns scenario) ∧
    (st_sidebar_warning " 'Status' column not found for filtering."
       ∈ notices ↔ "Status" ∉ columns scenario).
Proof.
  apply (filter_keeps_selected_rows (mkFilter [] [Some "Done"]) scenario
           (mkWorld [scenario] []) 0%nat).
  reflexivity.
Defined.

(** ** The loaded frame after a pass *)

(** The object [df] refers to is the first one in the store.  At the end of
    a pass it holds the loaded frame, unless the frame has neither filter
    column and both trend columns: then [df_filtered] is [df] itself and
    line 115 assigns the display column into it. *)
Lemma loaded_frame_after_pass fs F d :
  fs DATA_PATH = Workbook d →
  df_empty d = false →
  heap (run fs F).2 !! 0%nat =
    Some (if negb (has_column "Project Type" d || has_column "Status" d)
             && trend_available d
          then assign_display d else d).
Proof.
  intros E Hne. rewrite (run_workbook _ _ _ E Hne). cbn [snd heap].
  unfold final_heap, filtered_ref, filter_objects.
  destruct (trend_available d),
    (has_column "Project Type" d), (has_column "Status" d); reflexivity.
Qed.

Lemma loaded_frame_kept fs F d :
  fs DATA_PATH = Workbook d →
  df_empty d = false →
  "Project Type" ∈ columns d ∨ "Status" ∈ columns d →
  heap (run fs F).2 !! 0%nat = Some d.
Proof.
  intros E Hne Hcol. rewrite (loaded_frame_after_pass _ _ _ E Hne).
  rewrite <- !has_column_true in Hcol.
  destruct Hcol as [-> | ->]; [|rewrite orb_true_r]; reflexivity.
Qed.

(** C5. On a sheet that has the columns 'Year' and 'Budget Utilization
    Percentage' and neither 'Project Type' nor 'Status', the pass ends with
    [df] and [df_filtered] naming one object, and that object is no longer
    the loaded frame: it has gained the column 'Budget Utilization
    Display'. *)
Theorem aliased_frame_is_altered :
  (run (λ _, Workbook trend_only) (default_filter trend_only)).1
    = Returned (0%nat, 0%nat) ∧
  heap (run (λ _, Workbook trend_only) (default_filter trend_only)).2 !! 0%nat
    = Some (assign_display trend_only) ∧
  columns trend_only = ["Year"; "Budget Utilization Percentage"] ∧
  columns (assign_display trend_only) =
    ["Year"; "Budget Utilization Percentage"; "Budget Utilization Display"].
Proof.
  split.
  - by rewrite (run_workbook _ _ trend_only).
  - split; [|split; reflexivity].
    by rewrite (loaded_frame_after_pass _ _ trend_only).
Qed.

(** ** The trend branch (lines 113-128) and the table (lines 130-132) *)

Lemma has_column_view name d F : has_column name (view d F) = has_column name d.
Proof. reflexivity. Qed.

Lemma st_info_on_page fs F d body :
  fs DATA_PATH = Workbook d →
  df_empty d = false →
  st_info body ∈ page (run fs F).2 ↔
  body = trend_notice ∧ has_column "Budget Utilization Percentage" d = true
    ∧ has_column "Year" d = false.
Proof.
  intros E Hne. rewrite (run_workbook _ _ _ E Hne). cbn [snd page].
  unfold final_page, filter_widgets, kpi_widgets, charts_widgets,
    table_widgets, trend_available.
  rewrite !has_column_view.
  destruct (has_column "Project Type" d), (has_column "Status" d),
    (has_column "Budget Allocated" d), (has_column "Year" d),
    (has_column "Budget Utilization Percentage" d);
    cbn [andb app];
    rewrite ?elem_of_app, !elem_of_cons, !elem_of_nil;
    unfold trend_notice;
    (split; [ intros H; repeat (destruct H as [H|H]; try discriminate H);
              try (destruct H; fail);
              try (injection H as ->; done)
            | intros (-> & ? & ?); try discriminate; tauto ]).
Qed.

Lemma line_chart_on_page fs F d data title :
  fs DATA_PATH = Workbook d →
  df_empty d = false →
  st_plotly_chart (px_line data title) ∈ page (run fs F).2 →
  has_column "Year" d = true.
Proof.
  intros E Hne. rewrite (run_workbook _ _ _ E Hne). cbn [snd page].
  unfold final_page, filter_widgets, kpi_widgets, charts_widgets,
    table_widgets, trend_available.
  rewrite !has_column_view.
  destruct (has_column "Project Type" d), (has_column "Status" d),
    (has_column "Budget Allocated" d), (has_column "Year" d),
    (has_column "Budget Utilization Percentage" d);
    cbn [andb app];
    rewrite ?elem_of_app, !elem_of_cons, !elem_of_nil;
    intros H; try reflexivity;
    repeat (destruct H as [H|H]; try discriminate H); destruct H.
Qed.

(** C8. In a pass over a loaded sheet, the notice that the trend needs a
    'Year' column is on the page exactly when the sheet has 'Budget
    Utilization Percentage' and lacks 'Year'; it is the only [st.info] the
    script can show, so nothing is signalled when the percentage column is
    absent too.  Without 'Year' no line chart is drawn. *)
Theorem trend_unavailable_notice (fs : filesystem) (F : FilterState)
    (d : DataFrame) :
  fs DATA_PATH = Workbook d →
  df_empty d = false →
  (∀ body, st_info body ∈ page (run fs F).2 ↔
     body = trend_notice ∧ "Budget Utilization Percentage" ∈ columns d
       ∧ "Year" ∉ columns d) ∧
  ("Year" ∉ columns d →
     ∀ data title, st_plotly_chart (px_line data title) ∉ page (run fs F).2).
Proof.
  intros E Hne. split.
  - intros body. rewrite (st_info_on_page _ _ _ _ E Hne).
    by rewrite has_column_true, has_column_false.
  - intros Hyear data title Hin.
    apply (line_chart_on_page _ _ _ _ _ E Hne), has_column_true in Hin. done.
Qed.

Lemma trend_unavailable_notice_witness :
  (∀ body,
     st_info body ∈
       page (run (λ _, Workbook percentage_only)
               (default_filter percentage_only)).2 ↔
     body = trend_notice
       ∧ "Budget Utilization Percentage" ∈ columns percentage_only
       ∧ "Year" ∉ columns percentage_only) ∧
  ("Year" ∉ columns percentage_only →
     ∀ data title,
       st_plotly_chart (px_line data title) ∉
         page (run (λ _, Workbook percentage_only)
                 (default_filter percentage_only)).2).
Proof.
  apply (trend_unavailable_notice (λ _, Workbook percentage_only)
           (default_filter percentage_only) percentage_only);
    reflexivity.
Defined.

Lemma rows_assign_display d :
  rows (assign_display d) =
    (λ r, set_display r (times100 (budgetUtilizationPercentage r))) <$> rows d.
Proof. reflexivity. Qed.

(** C9. When the loaded sheet has both 'Year' and 'Budget Utilization
    Percentage', the table drawn under 'Filtered Raw Data' shows the
    filtered frame after line 115: it has the column 'Budget Utilization
    Display' (appended to the loaded columns when the sheet had no such
    column), holding the percentage times 100 in every row. *)
Theorem table_shows_display_column (fs : filesystem) (F : FilterState)
    (d : DataFrame) :
  fs DATA_PATH = Workbook d →
  df_empty d = false →
  "Year" ∈ columns d →
  "Budget Utilization Percentage" ∈ columns d →
  ∃ before t,
    page (run fs F).2 =
      before ++ [st_subheader "Filtered Raw Data"; st_dataframe t;
                 st_markdown "---";
                 st_markdown "Dashboard created with Streamlit."] ∧
    "Budget Utilization Display" ∈ columns t ∧
    ("Budget Utilization Display" ∉ columns d →
       columns t = columns d ++ ["Budget Utilization Display"]) ∧
    rows t =
      (λ r, set_display r (times100 (budgetUtilizationPercentage r)))
        <$> filter (selected_by F d) (rows d) ∧
    Forall (λ r, budgetUtilizationDisplay r
                 = times100 (budgetUtilizationPercentage r)) (rows t).
Proof.
  intros E Hne Hyear%has_column_true Hpct%has_column_true.
  rewrite (run_workbook _ _ _ E Hne). cbn [snd page].
  unfold final_page, shown, trend_available. rewrite Hyear, Hpct. cbn [andb].
  eexists _, (assign_display (view d F)). rewrite !(assoc_L (++)).
  split; [reflexivity|].
  unfold assign_display at 1 2. cbn [columns rows].
  rewrite has_column_view. split; [|split; [|split]].
  - destruct (has_column "Budget Utilization Display" d) eqn:Hd.
    + by apply has_column_true.
    + apply elem_of_app. right. by apply list_elem_of_singleton.
  - intros Hd%has_column_false. by rewrite Hd.
  - reflexivity.
  - rewrite rows_assign_display. apply Forall_fmap, Forall_forall.
    by intros [].
Qed.

Lemma table_shows_display_column_witness :
  ∃ before t,
    page (run (λ _, Workbook two_years) (default_filter two_years)).2 =
      before ++ [st_subheader "Filtered Raw Data"; st_dataframe t;
                 st_markdown "---";
                 st_markdown "Dashboard created with Streamlit."] ∧
    "Budget Utilization Display" ∈ columns t ∧
    ("Budget Utilization Display" ∉ columns two_years →
       columns t = columns two_years ++ ["Budget Utilization Display"]) ∧
    rows t =
      (λ r, set_display r (times100 (budgetUtilizationPercentage r)))
        <$> filter (selected_by (default_filter two_years) two_years)
              (rows two_years) ∧
    Forall (λ r, budgetUtilizationDisplay r
                 = times100 (budgetUtilizationPercentage r)) (rows t).
Proof.
  apply (table_shows_display_column (λ _, Workbook two_years)
           (default_filter two_years) two_years);
    [reflexivity | reflexivity | | ]; apply has_column_true; reflexivity.
Defined.

(** ** The KPI metrics (lines 70-83) *)

Lemma kpi_values_empty d :
  rows d = [] →
  kpi_values d =
    ("0", "0.00%",
     if has_column "Citizen Satisfaction Rate" d then "nan%" else "0.00%").
Proof.
  intros Hrows.
  unfold kpi_values, total_projects, avg_budget_utilization, avg_satisfaction,
    column.
  rewrite Hrows.
  destruct (has_column "Total Projects" d), (has_column "Budget Utilized" d),
    (has_column "Budget Allocated" d),
    (has_column "Citizen Satisfaction Rate" d); reflexivity.
Qed.

(** C1. With the 'Citizen Satisfaction Rate' column present and every
    status deselected, the filtered frame has no rows and the three metrics
    read 0, 0.00% and nan%: the mean of the empty column is NaN, not 0. *)
Theorem empty_view_shows_nan :
  rows (view rated nothing_selected) = [] ∧
  kpi_values (view rated nothing_selected) = ("0", "0.00%", "nan%") ∧
  avg_satisfaction (view rated nothing_selected) = None ∧
  st_metric "Avg Citizen Satisfaction" "nan%"
    ∈ page (run (λ _, Workbook rated) nothing_selected).2.
Proof.
  assert (rows (view rated nothing_selected) = []) as Hrows by reflexivity.
  split; [exact Hrows|]. split; [by rewrite (kpi_values_empty _ Hrows)|].
  split; [reflexivity|].
  rewrite (run_workbook _ _ rated) by reflexivity. cbn [snd page].
  unfold final_page. rewrite !elem_of_app. right. right. left.
  unfold kpi_widgets. rewrite (kpi_values_empty _ Hrows).
  rewrite !elem_of_cons. right. right. right. left. reflexivity.
Qed.

(** C3. The budget KPI is the utilized sum over the allocated sum, times
    100, when the frame has both columns and the allocated sum is positive,
    and 0 in every other case.  On the two-row scenario it is
    (80+50)/(100+50)*100, displayed as 86.67%. *)
Theorem avg_budget_utilization_cases (d : DataFrame) :
  ("Budget Utilized" ∈ columns d ∧ "Budget Allocated" ∈ columns d
   ∧ 0 < sum (column budgetAllocated d) →
   avg_budget_utilization d =
     Some (sum (column budgetUtilized d) / sum (column budgetAllocated d)
           * Qc_of_Z 100)) ∧
  ("Budget Utilized" ∉ columns d ∨ "Budget Allocated" ∉ columns d
   ∨ sum (column budgetAllocated d) ≤ 0 →
   avg_budget_utilization d = Some 0) ∧
  avg_budget_utilization scenario
    = Some (Qc_of_Z (80 + 50) / Qc_of_Z (100 + 50) * Qc_of_Z 100) ∧
  st_metric "Avg Budget Utilization" "86.67%"
    ∈ page (run (λ _, Workbook scenario) (default_filter scenario)).2.
Proof.
  unfold avg_budget_utilization. split; [|split; [|split]].
  - intros (Hu%has_column_true & Ha%has_column_true & Hpos).
    rewrite Hu, Ha. cbn [andb]. by rewrite bool_decide_true.
  - rewrite <- !has_column_false.
    intros [-> | [-> | Hle]]; [reflexivity | by rewrite andb_false_r |].
    rewrite bool_decide_false, andb_false_r; [reflexivity|].
    by apply Qcle_not_lt.
  - reflexivity.
  - rewrite (run_workbook _ _ scenario) by reflexivity. cbn [snd page].
    unfold final_page. rewrite !elem_of_app. right. right. left.
    unfold kpi_widgets. rewrite !elem_of_cons. right. right. left.
    reflexivity.
Qed.

(** ** Grouping (lines 103 and 117) *)

Section groupby_facts.
Context {K : Type} `{EqDecision K} (cmp : K → K → comparison).
Hypothesis cmp_eq : ∀ a b, cmp a b = Eq → a = b.
Hypothesis cmp_gt : ∀ a b, cmp a b = Gt → cmp b a = Lt.
Hypothesis cmp_irrefl : ∀ a, cmp a a ≠ Lt.
Hypothesis cmp_trans : ∀ a b c, cmp a b = Lt → cmp b c = Lt → cmp a c = Lt.

Lemma elem_of_insert_key k ks x :
  x ∈ insert_key cmp k ks ↔ x = k ∨ x ∈ ks.
Proof.
  induction ks as [|h t IH]; cbn.
  - rewrite list_elem_of_singleton, elem_of_nil. tauto.
  - destruct (cmp k h) eqn:E.
    + apply cmp_eq in E as ->. rewrite elem_of_cons. tauto.
    + rewrite !elem_of_cons. tauto.
    + rewrite !elem_of_cons, IH. tauto.
Qed.

Lemma insert_key_sorted k ks :
  StronglySorted (cmp_lt cmp) ks → StronglySorted (cmp_lt cmp) (insert_key cmp k ks).
Proof.
  induction 1 as [|h t Hsorted IH Hall]; cbn.
  - repeat constructor.
  - destruct (cmp k h) eqn:E.
    + by constructor.
    + constructor; [by constructor|]. constructor; [exact E|].
      eapply Forall_impl; [exact Hall|]. intros x Hx. by eapply cmp_trans.
    + constructor; [exact IH|]. apply Forall_forall. intros x Hx.
      apply elem_of_insert_key in Hx as [-> | Hx].
      * by apply cmp_gt.
      * by eapply Forall_forall in Hall.
Qed.

Lemma group_keys_sorted (s : list (option K)) :
  StronglySorted (cmp_lt cmp) (group_keys cmp s).
Proof.
  unfold group_keys. induction (dropna s) as [|k ks IH]; cbn.
  - constructor.
  - by apply insert_key_sorted.
Qed.

Lemma elem_of_group_keys (s : list (option K)) k :
  k ∈ group_keys cmp s ↔ Some k ∈ s.
Proof.
  assert (Some k ∈ s ↔ k ∈ omap id s) as ->.
  { rewrite list_elem_of_omap. split.
    - intros Hin. by exists (Some k).
    - intros (x & Hin & Hx). cbn in Hx. by subst. }
  unfold group_keys, dropna.
  induction (omap id s) as [|k' ks IH]; cbn.
  - reflexivity.
  - rewrite elem_of_insert_key, IH, elem_of_cons. tauto.
Qed.

Lemma sorted_NoDup (ks : list K) : StronglySorted (cmp_lt cmp) ks → NoDup ks.
Proof.
  induction 1 as [|h t Hsorted IH Hall]; constructor; [|exact IH].
  intros Hin. eapply Forall_forall in Hall; [|exact Hin].
  by apply cmp_irrefl in Hall.
Qed.

Lemma groupby_keys (key : ProjectRecord → option K) l :
  (groupby cmp key l).*1 = group_keys cmp (key <$> l).
Proof.
  unfold groupby. rewrite <- list_fmap_compose. apply list_fmap_id.
Qed.

End groupby_facts.





Lemma string_compare_eq (a b : string) : String_as_OT.compare a b = Eq → a = b.
Proof. by destruct (String_as_OT.compare_spec a b). Qed.

Lemma string_compare_gt (a b : string) :
  String_as_OT.compare a b = Gt → String_as_OT.compare b a = Lt.
Proof. by destruct (String_as_OT.compare_spec a b). Qed.

Lemma string_compare_irrefl (a : string) : String_as_OT.compare a a ≠ Lt.
Proof. apply (irreflexivity String_as_OT.lt). Qed.

Lemma string_compare_trans (a b c : string) :
  String_as_OT.compare a b = Lt → String_as_OT.compare b c = Lt →
  String_as_OT.compare a c = Lt.
Proof. apply (transitivity (R := String_as_OT.lt)). Qed.

(** *** The groups partition the keyed rows *)

Lemma fmap_ext_in {A B} (f g : A → B) (l : list A) :
  (∀ x, x ∈ l → f x = g x) → f <$> l = g <$> l.
Proof.
  intros Hfg. induction l as [|a l IH]; [reflexivity|].
  rewrite !fmap_cons. rewrite (Hfg a) by (by left).
  rewrite IH; [reflexivity|]. intros x Hx. apply Hfg. by right.
Qed.

Lemma join_cons {A} (x : list A) (ls : list (list A)) :
  mjoin (x :: ls) = x ++ mjoin ls.
Proof. reflexivity. Qed.

Lemma join_fmap_nil {A B} (ks : list A) :
  mjoin ((λ _, @nil B) <$> ks) = [].
Proof. induction ks as [|k ks IH]; [reflexivity|]. exact IH. Qed.

(** Putting a row in front of the group of one key puts it into the
    concatenation of the groups once. *)
Lemma join_insert_group {K B} `{EqDecision K} (k0 : K) (r : B)
    (G : K → list B) (ks : list K) :
  NoDup ks →
  k0 ∈ ks →
  mjoin ((λ k, if decide (k0 = k) then r :: G k else G k) <$> ks)
  ≡ₚ r :: mjoin (G <$> ks).
Proof.
  induction 1 as [|k ks Hk Hnd IH]; intros Hin.
  - by apply elem_of_nil in Hin.
  - rewrite !fmap_cons, !join_cons. destruct (decide (k0 = k)) as [->|Hne].
    + rewrite (fmap_ext_in _ G ks); [reflexivity|].
      intros x Hx. destruct (decide (k = x)) as [->|]; [done|reflexivity].
    + apply elem_of_cons in Hin as [->|Hin]; [done|].
      rewrite (IH Hin). symmetry. apply Permutation_middle.
Qed.

(** Grouping by distinct keys that cover the keys of the rows puts every
    row with a key in one group, once, and no other row in any group. *)
Lemma groups_partition {K} `{EqDecision K} (key : ProjectRecord → option K)
    (ks : list K) (l : list ProjectRecord) :
  NoDup ks →
  (∀ r k, r ∈ l → key r = Some k → k ∈ ks) →
  mjoin ((λ k, filter (λ r, key r = Some k) l) <$> ks)
  ≡ₚ filter (λ r, is_Some (key r)) l.
Proof.
  intros Hnd. induction l as [|r l IH]; intros Hks.
  - rewrite (fmap_ext_in _ (λ _, []) ks) by done. by rewrite join_fmap_nil.
  - assert (∀ r k, r ∈ l → key r = Some k → k ∈ ks) as Hks'.
    { intros r' k Hin. apply Hks. by right. }
    specialize (IH Hks'). destruct (key r) as [k0|] eqn:Hkey.
    + rewrite (filter_cons_True (λ r, is_Some (key r))) by (by rewrite Hkey).
      rewrite (fmap_ext_in (λ k, filter (λ r, key r = Some k) (r :: l))
                 (λ k, if decide (k0 = k)
                       then r :: filter (λ r, key r = Some k) l
                       else filter (λ r, key r = Some k) l) ks).
      * rewrite (join_insert_group k0 r
                   (λ k, filter (λ r, key r = Some k) l) ks Hnd)
          by (by apply (Hks r); [left|]).
        by rewrite IH.
      * intros k _. destruct (decide (k0 = k)) as [->|Hne].
        -- by rewrite filter_cons_True.
        -- by rewrite filter_cons_False by congruence.
    + rewrite (filter_cons_False (λ r, is_Some (key r)))
        by (rewrite Hkey; by intros []).
      rewrite (fmap_ext_in (λ k, filter (λ r, key r = Some k) (r :: l))
                 (λ k, filter (λ r, key r = Some k) l) ks); [exact IH|].
      intros k _. by rewrite filter_cons_False by congruence.
Qed.

(** *** Budget by project type (line 103) *)

Lemma budget_by_type_keys d :
  (budget_by_type d).*1 = group_keys String_as_OT.compare (column projectType d).
Proof.
  unfold budget_by_type, column.
  rewrite <- (groupby_keys String_as_OT.compare projectType (rows d)).
  rewrite <- list_fmap_compose. by apply list_fmap_ext.
Qed.

(** C7, as stated, fails: the row without a project type survives the
    default selection and belongs to no group, so the pie chart's totals
    re-sum to 100 while the column sums to 110. *)
Lemma budget_by_type_drops_untyped_rows :
  "Project Type" ∈ columns untyped ∧ "Budget Allocated" ∈ columns untyped ∧
  view untyped (default_filter untyped) = untyped ∧
  budget_by_type untyped = [("Road", Qc_of_Z 100)] ∧
  Qc_sum (budget_by_type untyped).*2 = Qc_of_Z 100 ∧
  sum (column budgetAllocated untyped) = Qc_of_Z 110 ∧
  Qc_sum (budget_by_type untyped).*2 ≠ sum (column budgetAllocated untyped).
Proof.
  split; [by apply has_column_true|]. split; [by apply has_column_true|].
  split; [reflexivity|].
  split; [|split; [|split]].
  - apply (bool_decide_unpack _). by vm_compute.
  - by apply Qc_is_canon.
  - by apply Qc_is_canon.
  - intros H. apply (f_equal this) in H. vm_compute in H. discriminate H.
Qed.

Lemma filter_Forall {A} (P : A → Prop) `{∀ x, Decision (P x)} (l : list A) :
  Forall P l → filter P l = l.
Proof.
  induction 1 as [|x l Hx Hl IH]; [reflexivity|].
  by rewrite filter_cons_True, IH.
Qed.

(** C7, amended. The totals of [budget_by_type] are the allocated sums of
    groups of rows, one group for each project type that occurs, holding
    the rows of that type in their order.  The groups together hold every
    row whose project type is not missing exactly once and no other row:
    all the rows of the frame when no project type is missing.  So
    re-summing the totals adds the allocated amounts of exactly those rows,
    grouped by type; that this equals the sum of the column bit for bit is
    not stated, since the two add the same numbers in different orders. *)
Theorem budget_by_type_partitions_rows (d : DataFrame) :
  ∃ groups : list (string * list ProjectRecord),
    budget_by_type d
      = (λ g, (g.1, sum (budgetAllocated <$> g.2))) <$> groups ∧
    NoDup groups.*1 ∧
    (∀ k g, (k, g) ∈ groups →
       g = filter (λ r, projectType r = Some k) (rows d)) ∧
    mjoin groups.*2 ≡ₚ filter (λ r, is_Some (projectType r)) (rows d) ∧
    (Forall (λ r, is_Some (projectType r)) (rows d) →
     mjoin groups.*2 ≡ₚ rows d).
Proof.
  exists (groupby String_as_OT.compare projectType (rows d)).
  split; [reflexivity|].
  assert (NoDup (group_keys String_as_OT.compare (projectType <$> rows d)))
    as Hnd.
  { apply (sorted_NoDup String_as_OT.compare string_compare_irrefl).
    apply (group_keys_sorted _ string_compare_eq string_compare_gt
             string_compare_trans). }
  assert (mjoin (groupby String_as_OT.compare projectType (rows d)).*2
          ≡ₚ filter (λ r, is_Some (projectType r)) (rows d)) as Hperm.
  { unfold groupby. rewrite <- list_fmap_compose.
    apply (groups_partition projectType); [exact Hnd|].
    intros r k Hin Hkey. apply (elem_of_group_keys _ string_compare_eq).
    rewrite <- Hkey. by apply list_elem_of_fmap_2. }
  split; [by rewrite groupby_keys|].
  split.
  - unfold groupby. intros k g (k' & [= -> ->] & _)%list_elem_of_fmap.
    reflexivity.
  - split; [exact Hperm|].
    intros Htyped. by rewrite Hperm, filter_Forall.
Qed.

(** The groups of the sheet [typed]: 'Bridge' before 'Road', the three
    'Road' rows in their order, the missing amount skipped. *)
Example budget_by_type_typed :
  budget_by_type typed = [("Bridge", Qc_of_Z 40); ("Road", Qc_of_Z 110)].
Proof. apply (bool_decide_unpack _). by vm_compute. Qed.

(** *** Utilization trend (lines 115-117) *)





Lemma dropna_times100 (s : list number) :
  dropna (times100 <$> s) = (λ q, q * Qc_of_Z 100) <$> dropna s.
Proof.
  induction s as [|[q|] s IH]; cbn; [reflexivity| |exact IH].
  f_equal. exact IH.
Qed.

Lemma Qc_sum_scale (xs : list Qc) (c : Qc) :
  Qc_sum ((λ q, q * c) <$> xs) = Qc_sum xs * c.
Proof.
  induction xs as [|x xs IH]; cbn; [ring|].
  fold (Qc_sum ((λ q, q * c) <$> xs)) (Qc_sum xs). rewrite IH. ring.
Qed.

(** The mean of the scaled column is the scaled mean of the column. *)
Lemma mean_times100 (s : list number) :
  mean (times100 <$> s) = times100 (mean s).
Proof.
  unfold mean. rewrite dropna_times100.
  destruct (dropna s) as [|x xs]; [reflexivity|].
  pose proof (Qc_sum_scale (x :: xs) (Qc_of_Z 100)) as Hscale.
  pose proof (length_fmap (λ q, q * Qc_of_Z 100) (x :: xs)) as Hlen.
  rewrite fmap_cons in Hscale, Hlen |- *.
  cbn [times100 fmap option_fmap option_map].
  rewrite Hscale, Hlen. f_equal. unfold Qcdiv. ring.
Qed.

Lemma filter_year_set_display (l : list ProjectRecord) y :
  budgetUtilizationDisplay
    <$> filter (λ r, year r = Some y)
          ((λ r, set_display r (times100 (budgetUtilizationPercentage r)))
             <$> l)
  = times100
    <$> (budgetUtilizationPercentage <$> filter (λ r, year r = Some y) l).
Proof.
  induction l as [|r l IH]; [reflexivity|].
  rewrite fmap_cons. destruct (decide (year r = Some y)) as [Hy|Hy].
  - rewrite !filter_cons_True by done. rewrite !fmap_cons. f_equal. exact IH.
  - rewrite !filter_cons_False by done. exact IH.
Qed.

Lemma utilization_trend_values v y m :
  (y, m) ∈ utilization_trend (assign_display v) →
  m = times100
        (mean (budgetUtilizationPercentage
                 <$> filter (λ r, year r = Some y) (rows v))).
Proof.
  unfold utilization_trend, groupby. rewrite <- list_fmap_compose.
  intros (k & Heq & _)%list_elem_of_fmap.
  unfold compose in Heq. cbn [fst snd] in Heq. injection Heq as -> ->.
  by rewrite filter_year_set_display, mean_times100.
Qed.





(** The trend of the sheet [two_years]: 2023 before 2024, the two rows of
    2024 averaged. *)
Example utilization_trend_two_years :
  utilization_trend (assign_display two_years)
  = [(Qc_of_Z 2023, Some (Qc_of_Z 75)); (Qc_of_Z 2024, Some (Q2Qc (75 # 2)))].
Proof. apply (bool_decide_unpack _). by vm_compute. Qed.

(** ** Worked examples *)

(** [:.2f] rounds to the nearest hundredth, ties to even, and prints NaN as
    nan. *)
Example format_2f_examples :
  format_2f (Some (Q2Qc (260 # 3))) = "86.67" ∧
  format_2f (Some (Q2Qc (1 # 8))) = "0.12" ∧
  format_2f (Some (Q2Qc (-7 # 2))) = "-3.50" ∧
  format_2f (Some 0) = "0.00" ∧
  format_2f None = "nan".
Proof. repeat split. Qed.

Example int_truncates :
  int (Q2Qc (7 # 2)) = 3%Z ∧ int (Q2Qc (-7 # 2)) = (-3)%Z.
Proof. split; reflexivity. Qed.

(** [unique] keeps first appearances and the missing cell. *)
Example unique_statuses :
  unique [Some "Done"; None; Some "Active"; Some "Done"; None]
  = [Some "Done"; None; Some "Active"].
Proof. reflexivity. Qed.

(** [value_counts] skips missing cells and lists the most frequent status
    first. *)
Example value_counts_statuses :
  value_counts [Some "Active"; Some "Done"; None; Some "Done"]
  = [("Done", 2%nat); ("Active", 1%nat)].
Proof. reflexivity. Qed.

(** The whole page of the first pass over the scenario sheet. *)
Example scenario_page :
  page (run (λ _, Workbook scenario) (default_filter scenario)).2 =
  [st_title "📊 Project Performance Dashboard";
   st_markdown "Explore key insights from cleaned project data.";
   st_sidebar_header "Filter Options";
   st_sidebar_warning " 'Project Type' column not found for filtering.";
   st_sidebar_multiselect "Select Project Status(es)"
     [Some "Done"; Some "Active"] [Some "Done"; Some "Active"];
   st_subheader "Key Performance Indicators";
   st_metric "Total Projects" "0";
   st_metric "Avg Budget Utilization" "86.67%";
   st_metric "Avg Citizen Satisfaction" "0.00%";
   st_subheader "Visualizations";
   st_plotly_chart
     (px_bar [("Done", 1%nat); ("Active", 1%nat)]
        "Number of Projects by Status");
   st_subheader "Filtered Raw Data";
   st_dataframe scenario;
   st_markdown "---";
   st_markdown "Dashboard created with Streamlit."].
Proof. by rewrite (run_workbook _ _ scenario). Qed.

(** ** The multiselect options (lines 42 and 55) *)

Lemma elem_of_unique_from {A} `{EqDecision A} (seen l : list A) x :
  x ∈ unique_from seen l ↔ x ∈ l ∧ x ∉ seen.
Proof.
  revert seen. induction l as [|a l IH]; intros seen; cbn.
  - rewrite elem_of_nil. tauto.
  - destruct (decide (a ∈ seen)) as [Ha|Ha].
    + rewrite IH, elem_of_cons. split; [tauto|].
      intros [[-> | Hin] Hx]; [done|tauto].
    + rewrite !elem_of_cons, IH, elem_of_cons.
      destruct (decide (x = a)) as [->|Hne]; tauto.
Qed.

Lemma NoDup_unique_from {A} `{EqDecision A} (seen l : list A) :
  NoDup (unique_from seen l).
Proof.
  revert seen. induction l as [|a l IH]; intros seen; cbn; [constructor|].
  destruct (decide (a ∈ seen)); [apply IH|].
  constructor; [|apply IH].
  rewrite elem_of_unique_from, elem_of_cons. tauto.
Qed.

Lemma unique_from_sublist {A} `{EqDecision A} (seen l : list A) :
  unique_from seen l `sublist_of` l.
Proof.
  revert seen. induction l as [|a l IH]; intros seen; cbn; [constructor|].
  destruct (decide (a ∈ seen)).
  - by apply sublist_cons.
  - by apply sublist_skip.
Qed.

Lemma elem_of_unique {A} `{EqDecision A} (l : list A) x :
  x ∈ unique l ↔ x ∈ l.
Proof. unfold unique. rewrite elem_of_unique_from, elem_of_nil. tauto. Qed.

Lemma NoDup_unique {A} `{EqDecision A} (l : list A) : NoDup (unique l).
Proof. apply NoDup_unique_from. Qed.

(** An option comes before another exactly as their first appearances in
    the column do: the column splits at the first appearance of an option,
    and no later option shows before that point. *)
Lemma unique_from_first_appearance {A} `{EqDecision A}
    (seen l o1 o2 : list A) x :
  unique_from seen l = o1 ++ x :: o2 →
  ∃ l1 l2, l = l1 ++ x :: l2 ∧ (x ∉ l1) ∧ ∀ y, y ∈ o2 → y ∉ l1.
Proof.
  revert seen o1. induction l as [|a l IH]; intros seen o1 Heq.
  - by destruct o1.
  - assert (∀ y, y ∈ x :: o2 → y ∈ unique_from seen (a :: l)) as Hsub.
    { intros y Hy. rewrite Heq. apply elem_of_app. by right. }
    cbn [unique_from] in Heq, Hsub. destruct (decide (a ∈ seen)) as [Ha|Ha].
    + destruct (IH _ _ Heq) as (l1 & l2 & -> & Hx & Ho2).
      exists (a :: l1), l2. split; [reflexivity|].
      assert (∀ y, y ∈ x :: o2 → y ≠ a) as Hne.
      { intros y Hy ->. apply Hsub, elem_of_unique_from in Hy. tauto. }
      split.
      * rewrite not_elem_of_cons. split; [apply Hne; by left|exact Hx].
      * intros y Hy. rewrite not_elem_of_cons.
        split; [apply Hne; by right|by apply Ho2].
    + destruct o1 as [|b o1]; cbn [app] in Heq.
      * injection Heq as -> _. exists [], l. split; [reflexivity|].
        split; [apply not_elem_of_nil|]. intros y _. apply not_elem_of_nil.
      * injection Heq as -> Heq.
        assert (∀ y, y ∈ x :: o2 → y ≠ b) as Hne.
        { intros y Hy ->.
          assert (b ∈ unique_from (b :: seen) l) as Hb.
          { rewrite Heq. apply elem_of_app. by right. }
          apply elem_of_unique_from in Hb as [_ Hb]. apply Hb. by left. }
        destruct (IH _ _ Heq) as (l1 & l2 & -> & Hx & Ho2).
        exists (b :: l1), l2. split; [reflexivity|]. split.
        -- rewrite not_elem_of_cons. split; [apply Hne; by left|exact Hx].
        -- intros y Hy. rewrite not_elem_of_cons.
           split; [apply Hne; by right|by apply Ho2].
Qed.

Lemma unique_first_appearances {A} `{EqDecision A} (l : list A) :
  first_appearances (unique l) l.
Proof.
  split; [apply NoDup_unique|]. split; [apply elem_of_unique|].
  intros o1 x o2. apply unique_from_first_appearance.
Qed.

(** In a pass over a loaded sheet, each multiselect the sidebar shows
    offers, and selects by default, the values of its column, the missing
    cell included: each value once, ordered as their first appearances in
    the column. *)
Theorem multiselect_options (fs : filesystem) (F : FilterState)
    (d : DataFrame) :
  fs DATA_PATH = Workbook d →
  df_empty d = false →
  ("Project Type" ∈ columns d →
   ∃ opts,
     st_sidebar_multiselect "Select Project Type(s)" opts opts
       ∈ page (run fs F).2 ∧
     first_appearances opts (column projectType d)) ∧
  ("Status" ∈ columns d →
   ∃ opts,
     st_sidebar_multiselect "Select Project Status(es)" opts opts
       ∈ page (run fs F).2 ∧
     first_appearances opts (column status d)).
Proof.
  intros E Hne. rewrite (run_workbook _ _ _ E Hne). cbn [snd page].
  split; intros Hcol%has_column_true.
  - exists (unique (column projectType d)).
    split; [|apply unique_first_appearances].
    unfold final_page, filter_widgets. rewrite Hcol.
    apply elem_of_app. right. apply elem_of_app. left. by left.
  - exists (unique (column status d)).
    split; [|apply unique_first_appearances].
    unfold final_page, filter_widgets. rewrite Hcol.
    apply elem_of_app. right. apply elem_of_app. left. right. by left.
Qed.

Lemma multiselect_options_witness :
  ("Project Type" ∈ columns untyped →
   ∃ opts,
     st_sidebar_multiselect "Select Project Type(s)" opts opts
       ∈ page (run (λ _, Workbook untyped) nothing_selected).2 ∧
     first_appearances opts (column projectType untyped)) ∧
  ("Status" ∈ columns untyped →
   ∃ opts,
     st_sidebar_multiselect "Select Project Status(es)" opts opts
       ∈ page (run (λ _, Workbook untyped) nothing_selected).2 ∧
     first_appearances opts (column status untyped)).
Proof.
  apply (multiselect_options (λ _, Workbook untyped) nothing_selected untyped);
    reflexivity.
Defined.

(** ** More on filtering (lines 41-63) *)

Lemma df_filtered_after_view F d : df_filtered_after F d = view d F.
Proof.
  unfold df_filtered_after.
  rewrite (filter_segment_eq F d (mkWorld [d] []) 0%nat eq_refl).
  pose proof (filtered_lookup d F [d] 0%nat eq_refl) as Hv.
  cbn [heap length] in Hv |- *. by rewrite Hv.
Qed.

Lemma view_default_filter d : view d (default_filter d) = d.
Proof.
  destruct d as [cs rs]. unfold view. cbn [columns rows]. f_equal.
  apply filter_Forall, Forall_forall. intros r Hr.
  unfold selected_by, default_filter, column. cbn [rows selected_project_type selected_status].
  split; intros _; apply elem_of_unique; by apply list_elem_of_fmap_2.
Qed.

(** With every option selected, as on a first pass, the filters keep the
    loaded frame as it is. *)
Theorem default_selection_keeps_all (d : DataFrame) :
  df_filtered_after (default_filter d) d = d.
Proof. by rewrite df_filtered_after_view, view_default_filter. Qed.

(** Deselecting every option of a filter column that the frame has leaves
    no row; the columns stay. *)
Theorem empty_selection_keeps_nothing (F : FilterState) (d : DataFrame) :
  ("Project Type" ∈ columns d ∧ selected_project_type F = []) ∨
  ("Status" ∈ columns d ∧ selected_status F = []) →
  rows (df_filtered_after F d) = [] ∧
  columns (df_filtered_after F d) = columns d.
Proof.
  intros Hsel. rewrite df_filtered_after_view. split; [|reflexivity].
  unfold view. cbn [rows]. apply elem_of_nil_inv. intros r.
  rewrite list_elem_of_filter. unfold selected_by.
  intros [[Hpt Hst] _].
  destruct Hsel as [[Hcol Hnil] | [Hcol Hnil]].
  - specialize (Hpt Hcol). rewrite Hnil in Hpt. by apply elem_of_nil in Hpt.
  - specialize (Hst Hcol). rewrite Hnil in Hst. by apply elem_of_nil in Hst.
Qed.

Lemma empty_selection_keeps_nothing_witness :
  rows (df_filtered_after nothing_selected rated) = [] ∧
  columns (df_filtered_after nothing_selected rated) = columns rated.
Proof.
  apply (empty_selection_keeps_nothing nothing_selected rated).
  right. split; [|reflexivity]. apply has_column_true. reflexivity.
Defined.

(** A selection inside another one keeps a part of what the other keeps:
    filtering with the wider selection and then with the narrower one gives
    what the narrower one gives alone, so its rows are a sublist. *)
Theorem narrower_selection_keeps_fewer (F F' : FilterState) (d : DataFrame) :
  (∀ x, x ∈ selected_project_type F → x ∈ selected_project_type F') →
  (∀ x, x ∈ selected_status F → x ∈ selected_status F') →
  df_filtered_after F (df_filtered_after F' d) = df_filtered_after F d ∧
  rows (df_filtered_after F d) `sublist_of` rows (df_filtered_after F' d).
Proof.
  intros Hpt Hst. rewrite !df_filtered_after_view.
  assert (view (view d F') F = view d F) as Heq.
  { unfold view. cbn [columns rows]. f_equal.
    rewrite list_filter_filter. apply list_filter_iff. intros r.
    unfold selected_by. cbn [columns]. split; [tauto|].
    intros [H1 H2]. repeat split; auto. }
  split; [exact Heq|].
  rewrite <- Heq. unfold view at 1. cbn [rows]. apply sublist_filter.
Qed.

Lemma narrower_selection_keeps_fewer_witness :
  df_filtered_after (mkFilter [] [Some "Done"])
    (df_filtered_after (default_filter scenario) scenario)
  = df_filtered_after (mkFilter [] [Some "Done"]) scenario ∧
  rows (df_filtered_after (mkFilter [] [Some "Done"]) scenario)
    `sublist_of` rows (df_filtered_after (default_filter scenario) scenario).
Proof.
  apply (narrower_selection_keeps_fewer (mkFilter [] [Some "Done"])
           (default_filter scenario) scenario).
  - intros x Hx. by apply elem_of_nil in Hx.
  - intros x Hx. apply list_elem_of_singleton in Hx as ->.
    apply (bool_decide_unpack _). by vm_compute.
Defined.

(** Filtering the filtered frame again with the same selection changes
    nothing. *)
Theorem filtering_twice (F : FilterState) (d : DataFrame) :
  df_filtered_after F (df_filtered_after F d) = df_filtered_after F d.
Proof.
  rewrite !df_filtered_after_view. unfold view. cbn [columns rows]. f_equal.
  rewrite list_filter_filter. apply list_filter_iff. intros r.
  unfold selected_by. cbn [columns]. tauto.
Qed.

(** ** The pass as a whole *)

Lemma run_absent fs F :
  fs DATA_PATH = Absent →
  run fs F =
    (Stopped,
     mkWorld [empty_frame]
       [st_error ("Data file not found at: " ++ DATA_PATH)]).
Proof.
  intros E. unfold run, app, load_segment.
  do 2 (unfold mbind at 1, script_bind at 1).
  rewrite (load_data_absent _ _ _ E). reflexivity.
Qed.

Lemma run_unreadable fs F e :
  fs DATA_PATH = Unreadable e →
  run fs F =
    (Stopped,
     mkWorld [empty_frame] [st_error ("Error loading data: " ++ e)]).
Proof.
  intros E. unfold run, app, load_segment.
  do 2 (unfold mbind at 1, script_bind at 1).
  rewrite (load_data_unreadable _ _ e _ E). reflexivity.
Qed.

Lemma run_empty_workbook fs F d :
  fs DATA_PATH = Workbook d →
  df_empty d = true →
  run fs F = (Stopped, mkWorld [d] []).
Proof.
  intros E Hempty. unfold run, app, load_segment.
  do 2 (unfold mbind at 1, script_bind at 1).
  rewrite (load_data_workbook _ _ _ _ E). step. by rewrite Hempty.
Qed.

Ltac page_cases d :=
  unfold final_page, filter_widgets, kpi_widgets, charts_widgets,
    table_widgets, trend_available;
  rewrite !has_column_view;
  destruct (has_column "Project Type" d), (has_column "Status" d),
    (has_column "Budget Allocated" d), (has_column "Year" d),
    (has_column "Budget Utilization Percentage" d);
  cbn [andb app];
  rewrite ?elem_of_app, !elem_of_cons, !elem_of_nil.

Lemma no_error_on_final_page d F msg : st_error msg ∉ final_page d F.
Proof.
  page_cases d; intros H;
    repeat (destruct H as [H|H]; try discriminate H); destruct H.
Qed.

(** The pass ends at [st.stop()] exactly when no sheet with at least one
    row and one column was loaded: the file is missing, unreadable, or
    parses to an empty frame. *)
Theorem pass_stops_iff (fs : filesystem) (F : FilterState) :
  (run fs F).1 = Stopped ↔
  (∀ d, fs DATA_PATH = Workbook d → df_empty d = true).
Proof.
  destruct (fs DATA_PATH) as [|e|d] eqn:E.
  - rewrite (run_absent _ _ E). split; [intros _ d Hd; discriminate Hd|done].
  - rewrite (run_unreadable _ _ _ E).
    split; [intros _ d Hd; discriminate Hd|done].
  - destruct (df_empty d) eqn:Hempty.
    + rewrite (run_empty_workbook _ _ _ E Hempty).
      split; [|done]. intros _ d' Hd'. by injection Hd' as <-.
    + rewrite (run_workbook _ _ _ E Hempty). cbn [fst].
      split; [discriminate|]. intros H. specialize (H d eq_refl). congruence.
Qed.

(** An error message is on the page exactly when the file is missing or
    unreadable; a parsed sheet, empty or not, never shows one. *)
Theorem error_shown_iff_load_failed (fs : filesystem) (F : FilterState) :
  (∃ msg, st_error msg ∈ page (run fs F).2) ↔
  (fs DATA_PATH = Absent ∨ ∃ e, fs DATA_PATH = Unreadable e).
Proof.
  destruct (fs DATA_PATH) as [|e|d] eqn:E.
  - rewrite (run_absent _ _ E). cbn [snd page]. split; [by left|].
    intros _. eexists. by apply list_elem_of_singleton.
  - rewrite (run_unreadable _ _ _ E). cbn [snd page].
    split; [intros _; right; by exists e|].
    intros _. eexists. by apply list_elem_of_singleton.
  - split; [|intros [H | [e H]]; discriminate H].
    intros [msg Hin]. exfalso. destruct (df_empty d) eqn:Hempty.
    + rewrite (run_empty_workbook _ _ _ E Hempty) in Hin.
      by apply elem_of_nil in Hin.
    + rewrite (run_workbook _ _ _ E Hempty) in Hin.
      by apply no_error_on_final_page in Hin.
Qed.

Lemma bar_chart_on_final_page d F data title :
  st_plotly_chart (px_bar data title) ∈ final_page d F ↔
  has_column "Status" d = true ∧ data = status_counts (view d F)
    ∧ title = "Number of Projects by Status".
Proof.
  page_cases d;
    (split;
     [ intros H; repeat (destruct H as [H|H]; try discriminate H);
       try (destruct H; fail); try (injection H as -> ->; done)
     | intros (Hs & -> & ->); try discriminate Hs; tauto ]).
Qed.

Lemma pie_chart_on_final_page d F data title :
  st_plotly_chart (px_pie data title) ∈ final_page d F ↔
  (has_column "Budget Allocated" d = true ∧ has_column "Project Type" d = true)
    ∧ data = budget_by_type (view d F)
    ∧ title = "Budget Allocation by Project Type".
Proof.
  page_cases d;
    (split;
     [ intros H; repeat (destruct H as [H|H]; try discriminate H);
       try (destruct H; fail); try (injection H as -> ->; done)
     | intros ([Ha Hp] & -> & ->); try discriminate Ha; try discriminate Hp;
       tauto ]).
Qed.

(** In a pass over a loaded sheet, the bar chart is drawn exactly when the
    sheet has 'Status', from the status counts of the filtered frame, and
    the pie chart exactly when it has both 'Budget Allocated' and 'Project
    Type', from the budget totals of the filtered frame. *)
Theorem charts_follow_columns (fs : filesystem) (F : FilterState)
    (d : DataFrame) :
  fs DATA_PATH = Workbook d →
  df_empty d = false →
  (∀ data title,
     st_plotly_chart (px_bar data title) ∈ page (run fs F).2 ↔
     "Status" ∈ columns d ∧ data = status_counts (df_filtered_after F d)
       ∧ title = "Number of Projects by Status") ∧
  (∀ data title,
     st_plotly_chart (px_pie data title) ∈ page (run fs F).2 ↔
     ("Budget Allocated" ∈ columns d ∧ "Project Type" ∈ columns d)
       ∧ data = budget_by_type (df_filtered_after F d)
       ∧ title = "Budget Allocation by Project Type").
Proof.
  intros E Hne. rewrite (run_workbook _ _ _ E Hne). cbn [snd page].
  rewrite df_filtered_after_view. split; intros data title.
  - by rewrite bar_chart_on_final_page, has_column_true.
  - by rewrite pie_chart_on_final_page, !has_column_true.
Qed.

Lemma charts_follow_columns_witness :
  (∀ data title,
     st_plotly_chart (px_bar data title)
       ∈ page (run (λ _, Workbook scenario) (default_filter scenario)).2 ↔
     "Status" ∈ columns scenario
       ∧ data = status_counts
                  (df_filtered_after (default_filter scenario) scenario)
       ∧ title = "Number of Projects by Status") ∧
  (∀ data title,
     st_plotly_chart (px_pie data title)
       ∈ page (run (λ _, Workbook scenario) (default_filter scenario)).2 ↔
     ("Budget Allocated" ∈ columns scenario ∧ "Project Type" ∈ columns scenario)
       ∧ data = budget_by_type
                  (df_filtered_after (default_filter scenario) scenario)
       ∧ title = "Budget Allocation by Project Type").
Proof.
  apply (charts_follow_columns (λ _, Workbook scenario)
           (default_filter scenario) scenario); reflexivity.
Defined.

Lemma metrics_on_final_page d F :
  st_metric "Total Projects" (kpi_values (view d F)).1.1 ∈ final_page d F ∧
  st_metric "Avg Budget Utilization" (kpi_values (view d F)).1.2
    ∈ final_page d F ∧
  st_metric "Avg Citizen Satisfaction" (kpi_values (view d F)).2
    ∈ final_page d F.
Proof.
  unfold final_page, kpi_widgets. rewrite !elem_of_app, !elem_of_cons. tauto.
Qed.

Lemma table_on_final_page d F : st_dataframe (shown d F) ∈ final_page d F.
Proof.
  unfold final_page, table_widgets. rewrite !elem_of_app, !elem_of_cons. tauto.
Qed.

Lemma final_heap_filtered d F :
  final_heap d F !! filtered_ref d 1 0 = Some (shown d F).
Proof.
  pose proof (filtered_lookup d F [d] 0%nat eq_refl) as Hv.
  cbn [length] in Hv. unfold final_heap, shown.
  destruct (trend_available d); [|exact Hv].
  by rewrite list_lookup_alter_eq, Hv.
Qed.

(** A missing column never ends the pass: whatever columns a sheet with at
    least one row and one column has, the pass runs to its end, shows the
    three metrics of the filtered frame, and shows as the table the frame
    [df_filtered] refers to at that moment. *)
Theorem missing_columns_never_stop (fs : filesystem) (F : FilterState)
    (d : DataFrame) :
  fs DATA_PATH = Workbook d →
  df_empty d = false →
  ∃ df_filtered t,
    (run fs F).1 = Returned (0%nat, df_filtered) ∧
    heap (run fs F).2 !! df_filtered = Some t ∧
    st_dataframe t ∈ page (run fs F).2 ∧
    st_metric "Total Projects"
      (string_of_Z (int (total_projects (df_filtered_after F d))))
      ∈ page (run fs F).2 ∧
    st_metric "Avg Budget Utilization"
      (percent_label (avg_budget_utilization (df_filtered_after F d)))
      ∈ page (run fs F).2 ∧
    st_metric "Avg Citizen Satisfaction"
      (percent_label (avg_satisfaction (df_filtered_after F d)))
      ∈ page (run fs F).2.
Proof.
  intros E Hne. rewrite (run_workbook _ _ _ E Hne). cbn [fst snd heap page].
  rewrite df_filtered_after_view.
  exists (filtered_ref d 1 0), (shown d F).
  split; [reflexivity|]. split; [apply final_heap_filtered|].
  split; [apply table_on_final_page|]. apply metrics_on_final_page.
Qed.

Lemma missing_columns_never_stop_witness :
  ∃ df_filtered t,
    (run (λ _, Workbook percentage_only) nothing_selected).1
      = Returned (0%nat, df_filtered) ∧
    heap (run (λ _, Workbook percentage_only) nothing_selected).2
      !! df_filtered = Some t ∧
    st_dataframe t
      ∈ page (run (λ _, Workbook percentage_only) nothing_selected).2 ∧
    st_metric "Total Projects"
      (string_of_Z
         (int (total_projects
                 (df_filtered_after nothing_selected percentage_only))))
      ∈ page (run (λ _, Workbook percentage_only) nothing_selected).2 ∧
    st_metric "Avg Budget Utilization"
      (percent_label
         (avg_budget_utilization
            (df_filtered_after nothing_selected percentage_only)))
      ∈ page (run (λ _, Workbook percentage_only) nothing_selected).2 ∧
    st_metric "Avg Citizen Satisfaction"
      (percent_label
         (avg_satisfaction
            (df_filtered_after nothing_selected percentage_only)))
      ∈ page (run (λ _, Workbook percentage_only) nothing_selected).2.
Proof.
  apply (missing_columns_never_stop (λ _, Workbook percentage_only)
           nothing_selected percentage_only); reflexivity.
Defined.

(** After a pass over a loaded sheet, [df_filtered] names the object [df]
    names exactly when the sheet has neither filter column.  The loaded
    frame is still what [df] names whenever the two variables name
    different objects, and also whenever the sheet lacks 'Year' or 'Budget
    Utilization Percentage'. *)
Theorem filtered_object_identity (fs : filesystem) (F : FilterState)
    (d : DataFrame) :
  fs DATA_PATH = Workbook d →
  df_empty d = false →
  ∃ df_filtered,
    (run fs F).1 = Returned (0%nat, df_filtered) ∧
    (df_filtered = 0%nat ↔
       ("Project Type" ∉ columns d) ∧ ("Status" ∉ columns d)) ∧
    ((df_filtered ≠ 0%nat) ∨ ("Year" ∉ columns d)
       ∨ ("Budget Utilization Percentage" ∉ columns d) →
     heap (run fs F).2 !! 0%nat = Some d).
Proof.
  intros E Hne. exists (filtered_ref d 1 0).
  split; [by rewrite (run_workbook _ _ _ E Hne)|].
  rewrite (loaded_frame_after_pass _ _ _ E Hne).
  rewrite <- !has_column_false. unfold filtered_ref, trend_available.
  destruct (has_column "Project Type" d), (has_column "Status" d),
    (has_column "Year" d), (has_column "Budget Utilization Percentage" d);
    cbn [negb orb andb];
    (split; [split; [try discriminate; tauto | intros [? ?]; congruence]|]);
    try reflexivity;
    intros [H | [H | H]]; congruence.
Qed.

Lemma filtered_object_identity_witness :
  ∃ df_filtered,
    (run (λ _, Workbook two_years) (default_filter two_years)).1
      = Returned (0%nat, df_filtered) ∧
    (df_filtered = 0%nat ↔
       ("Project Type" ∉ columns two_years)
       ∧ ("Status" ∉ columns two_years)) ∧
    ((df_filtered ≠ 0%nat) ∨ ("Year" ∉ columns two_years)
       ∨ ("Budget Utilization Percentage" ∉ columns two_years) →
     heap (run (λ _, Workbook two_years) (default_filter two_years)).2
       !! 0%nat = Some two_years).
Proof.
  apply (filtered_object_identity (λ _, Workbook two_years)
           (default_filter two_years) two_years); reflexivity.
Defined.

(** ** Status counts (lines 89-91) *)

Lemma insert_count_perm x l : insert_count x l ≡ₚ x :: l.
Proof.
  induction l as [|y l IH]; cbn [insert_count]; [reflexivity|].
  destruct (x.2 <? y.2)%nat; [|reflexivity].
  rewrite IH. apply Permutation_swap.
Qed.

Lemma foldr_insert_count_perm items : foldr insert_count [] items ≡ₚ items.
Proof.
  induction items as [|x items IH]; cbn; [reflexivity|].
  by rewrite insert_count_perm, IH.
Qed.

Lemma insert_count_sorted x l :
  StronglySorted count_ge l → StronglySorted count_ge (insert_count x l).
Proof.
  induction 1 as [|y l Hsorted IH Hall]; cbn [insert_count].
  - repeat constructor.
  - destruct (x.2 <? y.2)%nat eqn:E.
    + apply Nat.ltb_lt in E. constructor; [exact IH|].
      rewrite insert_count_perm. constructor; [unfold count_ge; lia|exact Hall].
    + apply Nat.ltb_ge in E. constructor; [by constructor|].
      constructor; [exact E|].
      eapply Forall_impl; [exact Hall|]. unfold count_ge. intros z Hz. lia.
Qed.

Lemma foldr_insert_count_sorted items :
  StronglySorted count_ge (foldr insert_count [] items).
Proof.
  induction items as [|x items IH]; cbn; [constructor|].
  by apply insert_count_sorted.
Qed.

Lemma sum_list_with_plus {A} (f g : A → nat) (ks : list A) :
  sum_list_with (λ k, f k + g k)%nat ks
  = (sum_list_with f ks + sum_list_with g ks)%nat.
Proof. induction ks as [|k ks IH]; cbn; [reflexivity|]. rewrite IH. lia. Qed.

Lemma sum_list_with_zero {A} (ks : list A) :
  sum_list_with (λ _, 0%nat) ks = 0%nat.
Proof. induction ks as [|k ks IH]; cbn; [reflexivity|exact IH]. Qed.

Lemma sum_list_with_ext {A} (f g : A → nat) (ks : list A) :
  (∀ k, f k = g k) → sum_list_with f ks = sum_list_with g ks.
Proof.
  intros Hfg. induction ks as [|k ks IH]; cbn; [reflexivity|].
  by rewrite Hfg, IH.
Qed.

Lemma sum_list_with_delta {A} `{EqDecision A} (a : A) (ks : list A) :
  NoDup ks →
  sum_list_with (λ k, if decide (a = k) then 1 else 0)%nat ks
  = if decide (a ∈ ks) then 1%nat else 0%nat.
Proof.
  induction 1 as [|k ks Hk Hnd IH]; cbn; [reflexivity|].
  rewrite IH. destruct (decide (a = k)) as [->|Hne].
  - destruct (decide (k ∈ ks)); [done|].
    destruct (decide (k ∈ k :: ks)) as [_|[]]; [reflexivity|left].
  - destruct (decide (a ∈ ks)) as [Hin|Hin].
    + destruct (decide (a ∈ k :: ks)) as [_|[]]; [reflexivity|by right].
    + destruct (decide (a ∈ k :: ks)) as [Hin'|_]; [|reflexivity].
      apply elem_of_cons in Hin'. tauto.
Qed.

(** Counting a list value by value, over distinct values that cover it,
    counts every element once. *)
Lemma counts_total {A} `{EqDecision A} (ks l : list A) :
  NoDup ks →
  (∀ x, x ∈ l → x ∈ ks) →
  sum_list_with (λ v, length (filter (λ y, y = v) l)) ks = length l.
Proof.
  intros Hnd. induction l as [|a l IH]; intros Hks.
  - apply sum_list_with_zero.
  - rewrite (sum_list_with_ext _
      (λ v, (if decide (a = v) then 1 else 0)
            + length (filter (λ y, y = v) l))%nat).
    + rewrite sum_list_with_plus, sum_list_with_delta by done.
      rewrite decide_True by (apply Hks; left).
      rewrite IH; [reflexivity|]. intros x Hx. apply Hks. by right.
    + intros v. destruct (decide (a = v)) as [->|Hne].
      * by rewrite filter_cons_True.
      * by rewrite filter_cons_False.
Qed.

Lemma sum_list_snd_with {A} (f : A → nat) (ks : list A) :
  sum_list ((λ v, (v, f v)) <$> ks).*2 = sum_list_with f ks.
Proof. induction ks as [|k ks IH]; cbn; [reflexivity|]. by rewrite <- IH. Qed.

(** The heights of the bars of the status chart add up to the number of
    cells of the status column that are not missing. *)
Theorem value_counts_total (s : list text) :
  sum_list (value_counts s).*2 = length (dropna s).
Proof.
  unfold value_counts. rewrite foldr_insert_count_perm.
  rewrite sum_list_snd_with. apply counts_total.
  - apply NoDup_unique.
  - intros x Hx. by apply elem_of_unique.
Qed.

Lemma count_dropna {A} `{EqDecision A} (s : list (option A)) (v : A) :
  length (filter (λ y, y = v) (dropna s))
  = length (filter (λ y, y = Some v) s).
Proof.
  unfold dropna. induction s as [|[a|] s IH]; [reflexivity| |].
  - change (omap id (Some a :: s)) with (a :: omap id s).
    destruct (decide (a = v)) as [->|Hne].
    + rewrite !filter_cons_True by done. cbn [length]. by rewrite IH.
    + rewrite !filter_cons_False by congruence. exact IH.
  - change (omap id (None :: s)) with (omap id s).
    rewrite (filter_cons_False (λ y, y = Some v)) by done. exact IH.
Qed.

Lemma elem_of_dropna {A} (s : list (option A)) (v : A) :
  v ∈ dropna s ↔ Some v ∈ s.
Proof.
  unfold dropna. rewrite list_elem_of_omap. split.
  - intros (x & Hin & Hx). cbn in Hx. by subst.
  - intros Hin. by exists (Some v).
Qed.

(** The bars of the status chart come in falling order of height, one bar
    for each status that occurs in the column, and the height of a bar is
    the number of cells holding that status. *)
Theorem value_counts_bars (s : list text) :
  StronglySorted count_ge (value_counts s) ∧
  NoDup (value_counts s).*1 ∧
  (∀ v c, (v, c) ∈ value_counts s ↔
     Some v ∈ s ∧ c = length (filter (λ y, y = Some v) s)).
Proof.
  split; [apply foldr_insert_count_sorted|].
  unfold value_counts. split.
  - rewrite foldr_insert_count_perm, <- list_fmap_compose.
    rewrite (list_fmap_ext _ id (unique (dropna s))) by done.
    rewrite list_fmap_id. apply NoDup_unique.
  - intros v c. rewrite foldr_insert_count_perm, list_elem_of_fmap.
    split.
    + intros (v' & Heq & Hin). injection Heq as -> ->.
      apply elem_of_unique, elem_of_dropna in Hin.
      split; [exact Hin|apply count_dropna].
    + intros [Hin ->]. exists v. rewrite count_dropna.
      split; [reflexivity|]. by apply elem_of_unique, elem_of_dropna.
Qed.

(** ** More on the budget by project type (line 103) *)

(** The slices of the pie chart come in ascending order of project type,
    one slice for each project type that occurs in the frame, and a slice
    is the allocated sum of the rows of its type. *)
Theorem budget_by_type_slices (d : DataFrame) :
  StronglySorted String_as_OT.lt (budget_by_type d).*1 ∧
  NoDup (budget_by_type d).*1 ∧
  (∀ k t, (k, t) ∈ budget_by_type d ↔
     (∃ r, r ∈ rows d ∧ projectType r = Some k) ∧
     t = sum (budgetAllocated
                <$> filter (λ r, projectType r = Some k) (rows d))).
Proof.
  assert (StronglySorted String_as_OT.lt (budget_by_type d).*1) as Hsorted.
  { rewrite budget_by_type_keys.
    apply (group_keys_sorted _ string_compare_eq string_compare_gt
             string_compare_trans). }
  split; [exact Hsorted|].
  split; [exact (sorted_NoDup _ string_compare_irrefl _ Hsorted)|].
  intros k t. unfold budget_by_type, groupby.
  rewrite <- list_fmap_compose, list_elem_of_fmap.
  assert (k ∈ group_keys String_as_OT.compare (projectType <$> rows d) ↔
          ∃ r, r ∈ rows d ∧ projectType r = Some k) as Hkeys.
  { rewrite (elem_of_group_keys _ string_compare_eq), list_elem_of_fmap.
    split; intros (r & ? & ?); exists r; split; done. }
  split.
  - intros (k' & Heq & Hin). unfold compose in Heq. cbn [fst snd] in Heq.
    injection Heq as -> ->. split; [by apply Hkeys|reflexivity].
  - intros [Hin ->]. exists k. split; [reflexivity|by apply Hkeys].
Qed.

(** ** More on the satisfaction metric (line 82) *)

Lemma mentions_app c (s t : string) :
  mentions c (s ++ t) = mentions c s || mentions c t.
Proof.
  induction s as [|a s IH]; [reflexivity|].
  change (mentions c (String a (s ++ t))
          = mentions c (String a s) || mentions c t).
  cbn [mentions]. rewrite IH. by rewrite orb_assoc.
Qed.

Lemma percent_label_Some_not_nan q : percent_label (Some q) ≠ "nan%".
Proof.
  intros H. apply (f_equal (mentions "."%char)) in H.
  unfold percent_label, format_2f in H. rewrite !mentions_app in H.
  change (mentions "."%char ".") with true in H.
  rewrite !orb_true_r, orb_true_l in H. discriminate H.
Qed.

Lemma dropna_nil {A} (s : list (option A)) :
  dropna s = [] ↔ Forall (λ x, x = None) s.
Proof.
  unfold dropna. induction s as [|[a|] s IH]; cbn.
  - split; [constructor|done].
  - split; [done|]. intros H. by apply Forall_cons_1 in H as [? _].
  - rewrite IH. split.
    + by constructor.
    + intros H. by apply Forall_cons_1 in H as [_ ?].
Qed.

Lemma mean_None (s : list number) :
  mean s = None ↔ Forall (λ x, x = None) s.
Proof.
  rewrite <- dropna_nil. unfold mean. by destruct (dropna s).
Qed.

(** The satisfaction metric reads nan% exactly when the frame has the
    column 'Citizen Satisfaction Rate' and no cell of it holds a value, an
    empty frame included. *)
Theorem satisfaction_nan_iff (d : DataFrame) :
  percent_label (avg_satisfaction d) = "nan%" ↔
  "Citizen Satisfaction Rate" ∈ columns d ∧
  Forall (λ r, citizenSatisfactionRate r = None) (rows d).
Proof.
  rewrite <- has_column_true. unfold avg_satisfaction.
  destruct (has_column "Citizen Satisfaction Rate" d).
  - assert (Forall (λ r, citizenSatisfactionRate r = None) (rows d)
            ↔ mean (column citizenSatisfactionRate d) = None) as ->.
    { rewrite mean_None. unfold column. by rewrite Forall_fmap. }
    destruct (mean (column citizenSatisfactionRate d)) as [q|].
    + cbn [times100 fmap option_fmap option_map]. split.
      * intros H. by apply percent_label_Some_not_nan in H.
      * intros [_ H]. discriminate H.
    + split; [done|reflexivity].
  - split; [|intros [H _]; discriminate H].
    intros H. by apply percent_label_Some_not_nan in H.
Qed.

Lemma Qc_sum_unit_bounds (xs : list Qc) :
  Forall (λ q, 0 ≤ q ∧ q ≤ 1) xs →
  0 ≤ Qc_sum xs ∧ Qc_sum xs ≤ Qc_of_Z (Z.of_nat (length xs)).
Proof.
  induction 1 as [|x xs [Hx0 Hx1] _ [IH0 IH1]].
  - split; by apply (bool_decide_unpack _).
  - cbn [Qc_sum foldr length]. fold (Qc_sum xs).
    rewrite Nat2Z.inj_succ, <- Z.add_1_l, Z2Qc_inj_add, Z2Qc_inj_1.
    split; [by apply Qcplus_nonneg_nonneg|by apply Qcplus_le_compat].
Qed.

Lemma mean_unit_bounds (s : list number) (v : Qc) :
  Forall (λ q, 0 ≤ q ∧ q ≤ 1) (dropna s) →
  mean s = Some v →
  0 ≤ v ∧ v ≤ 1.
Proof.
  intros Hall. unfold mean.
  destruct (dropna s) as [|x xs] eqn:Hxs; [discriminate|].
  intros [= <-].
  destruct (Qc_sum_unit_bounds _ Hall) as [H0 H1].
  set (n := Qc_of_Z (Z.of_nat (length (x :: xs)))) in *.
  assert (0 < n) as Hn.
  { unfold n. rewrite <- Z2Qc_inj_0.
    apply (proj1 (Z2Qc_inj_lt 0 (Z.of_nat (length (x :: xs))))).
    cbn [length]. lia. }
  assert (Qc_sum (x :: xs) / n * n = Qc_sum (x :: xs)) as Hdiv.
  { unfold Qcdiv. rewrite <- Qcmult_assoc, Qcmult_inv_l, Qcmult_1_r; [done|].
    by apply not_symmetry, Qclt_not_eq. }
  split.
  - apply (proj2 (Qcmult_le_mono_pos_r 0 (Qc_sum (x :: xs) / n) n Hn)).
    by rewrite Hdiv, Qcmult_0_l.
  - apply (proj2 (Qcmult_le_mono_pos_r (Qc_sum (x :: xs) / n) 1 n Hn)).
    by rewrite Hdiv, Qcmult_1_l.
Qed.

(** When every satisfaction rate of the frame lies between 0 and 1, as
    the script assumes, the satisfaction metric, if it is a number, lies
    between 0 and 100. *)
Theorem satisfaction_within_percent (d : DataFrame) (v : Qc) :
  (∀ r q, r ∈ rows d → citizenSatisfactionRate r = Some q → 0 ≤ q ∧ q ≤ 1) →
  avg_satisfaction d = Some v →
  0 ≤ v ∧ v ≤ Qc_of_Z 100.
Proof.
  intros Hrates. unfold avg_satisfaction.
  assert (0 ≤ Qc_of_Z 100) as H100 by (by apply (bool_decide_unpack _)).
  destruct (has_column "Citizen Satisfaction Rate" d).
  - destruct (mean (column citizenSatisfactionRate d)) as [m|] eqn:Hm;
      [|discriminate].
    cbn [times100 fmap option_fmap option_map]. intros [= <-].
    apply mean_unit_bounds in Hm as [Hm0 Hm1].
    + split.
      * by apply Qcmult_nonneg_nonneg.
      * rewrite <- (Qcmult_1_l (Qc_of_Z 100)) at 2.
        by apply Qcmult_le_mono_nonneg_r.
    + apply Forall_forall. intros q Hq.
      apply elem_of_dropna in Hq. unfold column in Hq.
      apply list_elem_of_fmap in Hq as (r & Hr & Hin). by apply (Hrates r).
  - intros [= <-]. split; [apply Qcle_refl|exact H100].
Qed.

Lemma satisfaction_within_percent_witness :
  0 ≤ Q2Qc 80 ∧ Q2Qc 80 ≤ Qc_of_Z 100.
Proof.
  apply (satisfaction_within_percent rated (Q2Qc 80)).
  - intros r q Hr Hq. apply list_elem_of_singleton in Hr as ->.
    injection Hq as <-. split; by apply (bool_decide_unpack _).
  - apply (bool_decide_unpack _). by vm_compute.
Defined.

(** ** More on the display column and the trend (lines 115-117) *)

Lemma has_display_after d :
  has_column "Budget Utilization Display" (assign_display d) = true.
Proof.
  apply has_column_true. unfold assign_display. cbn [columns].
  destruct (has_column "Budget Utilization Display" d) eqn:Hd.
  - by apply has_column_true.
  - apply elem_of_app. right. by apply list_elem_of_singleton.
Qed.

(** The assignment of line 115 touches nothing but the display column: it
    keeps the eight columns of the sheet and the order and number of the
    rows, and assigning a second time changes nothing. *)
Theorem assign_display_only_adds (d : DataFrame) :
  assign_display (assign_display d) = assign_display d ∧
  length (rows (assign_display d)) = length (rows d) ∧
  (∀ name, name ∈ columns d → name ∈ columns (assign_display d)) ∧
  column projectType (assign_display d) = column projectType d ∧
  column status (assign_display d) = column status d ∧
  column totalProjects (assign_display d) = column totalProjects d ∧
  column budgetAllocated (assign_display d) = column budgetAllocated d ∧
  column budgetUtilized (assign_display d) = column budgetUtilized d ∧
  column citizenSatisfactionRate (assign_display d)
    = column citizenSatisfactionRate d ∧
  column year (assign_display d) = column year d ∧
  column budgetUtilizationPercentage (assign_display d)
    = column budgetUtilizationPercentage d.
Proof.
  split.
  { assert ((λ r, set_display r (times100 (budgetUtilizationPercentage r)))
              <$> rows (assign_display d)
            = rows (assign_display d)) as Hrows.
    { rewrite rows_assign_display, <- list_fmap_compose.
      by apply list_fmap_ext. }
    unfold assign_display at 1. rewrite has_display_after, Hrows.
    by destruct (assign_display d). }
  split; [by rewrite rows_assign_display, length_fmap|].
  split.
  { intros name Hin. unfold assign_display. cbn [columns].
    destruct (has_column "Budget Utilization Display" d); [done|].
    apply elem_of_app. by left. }
  unfold column. rewrite rows_assign_display.
  repeat split; rewrite <- list_fmap_compose; by apply list_fmap_ext.
Qed.

(** A year of the trend has the value NaN exactly when no row of that year
    holds a percentage. *)
Theorem trend_value_nan_iff (v : DataFrame) (y : Qc) (m : number) :
  (y, m) ∈ utilization_trend (assign_display v) →
  (m = None ↔
   Forall (λ r, year r = Some y → budgetUtilizationPercentage r = None)
     (rows v)).
Proof.
  intros ->%utilization_trend_values.
  assert (∀ x, times100 x = None ↔ x = None) as -> by (by intros []).
  rewrite mean_None, Forall_fmap, !Forall_forall.
  split.
  - intros H r Hin Hy. apply (H r). by apply list_elem_of_filter.
  - intros H r [Hy Hin]%list_elem_of_filter. by apply H.
Qed.

Lemma trend_value_nan_iff_witness :
  Some (Qc_of_Z 75) = None ↔
  Forall (λ r, year r = Some (Qc_of_Z 2023) →
               budgetUtilizationPercentage r = None)
    (rows two_years).
Proof.
  apply (trend_value_nan_iff two_years (Qc_of_Z 2023) (Some (Qc_of_Z 75))).
  apply (bool_decide_unpack _). by vm_compute.
Defined.

(** ** Rounding for display (lines 78 and 83) *)

(** The integer the format rounds to is a nearest one: it is within one
    half of the value. *)
Theorem round_half_even_nearest (q : Q) :
  (Qabs (q - inject_Z (round_half_even q)) <= 1 # 2)%Q.
Proof.
  destruct q as [n d]. unfold round_half_even. cbn [Qnum Qden].
  pose proof (Z.div_mod n (Z.pos d) ltac:(done)) as Hdm.
  pose proof (Z.mod_pos_bound n (Z.pos d) ltac:(done)) as Hb.
  set (fl := (n / Z.pos d)%Z) in *. set (r := (n mod Z.pos d)%Z) in *.
  assert (∀ z : Z, (2 * Z.abs (n - z * Z.pos d) ≤ Z.pos d)%Z →
            (Qabs ((n # d) - inject_Z z) <= 1 # 2)%Q) as Hgoal.
  { intros z Hz. unfold Qle, Qabs, Qminus, Qplus, Qopp, inject_Z.
    cbn [Qnum Qden]. rewrite Pos.mul_1_r, Z.mul_1_r, Z.mul_1_l.
    replace (n + - z * Z.pos d)%Z with (n - z * Z.pos d)%Z by ring.
    lia. }
  destruct (Z.compare_spec (2 * r) (Z.pos d)) as [Heq|Hlt|Hgt].
  - destruct (Z.even fl); apply Hgoal; lia.
  - apply Hgoal. lia.
  - apply Hgoal. lia.
Qed.
